(** * Emotion classification notebook: a shallow embedding

    The repository is one Jupyter notebook, [enhanced_nlp_dataset-2.ipynb],
    with four code cells:

    - cell 1 loads [nlp_dataset.csv] and cleans the [Comment] column with
      [preprocess_text];
    - cell 2 turns the cleaned text into a TF-IDF matrix;
    - cell 3 splits the data and fits a Naive Bayes and a linear SVM model;
    - cell 4 scores both models on the test split and prints two lines.

    The notebook's own code ([preprocess_text] and the four cells) is
    embedded as written.  What it calls in pandas and scikit-learn is not
    part of the repository: those calls are operations of an interface
    ([Sklearn], [file_state]) and the few facts about them that a statement
    rests on are laws of that interface ([SklearnLaws]), each a hypothesis
    of the theorem that uses it.

    What is modelled of a run: the exception it ends with or the variables
    it binds, the lines [print] writes to standard output, and the library
    calls it makes.  Not modelled: warnings a library sends to standard
    error, the value Jupyter shows under a cell that ends in an expression
    (cell 3 ends with the fitted SVM), floating-point arithmetic (a float is
    an abstract value of the interface), and text outside Latin-1. *)

From Stdlib Require Import Ascii String NArith QArith Qround.
From stdpp Require Import gmap strings list.

(** ** Python's [str] built-ins

    A Python string is modelled as a Rocq [string] whose characters are the
    code points 0..255 (ASCII and Latin-1).  On that range every built-in
    below is total and closed: [str.lower] never leaves it. *)
Module Py.

Definition code (c : ascii) : N := N_of_ascii c.

Definition in_range (lo hi : N) (c : ascii) : bool :=
  ((lo <=? code c) && (code c <=? hi))%N.

(** [c.isupper()]: A-Z, and the Latin-1 capitals U+00C0..U+00DE without the
    multiplication sign U+00D7. *)
Definition isupper (c : ascii) : bool :=
  in_range 65 90 c || (in_range 192 222 c && negb (code c =? 215)%N).

(** One character of [str.lower]: every capital of the range has its small
    letter 32 code points above it. *)
Definition lower_char (c : ascii) : ascii :=
  if isupper c then ascii_of_N (code c + 32) else c.

(** [s.lower()] *)
Fixpoint lower (s : string) : string :=
  match s with
  | EmptyString => EmptyString
  | String c s' => String (lower_char c) (lower s')
  end.

(** [c.isspace()]: tab, LF, VT, FF, CR, the separators U+001C..U+001F, the
    space, NEL (U+0085) and the no-break space (U+00A0). *)
Definition isspace (c : ascii) : bool :=
  in_range 9 13 c || in_range 28 32 c || (code c =? 133)%N || (code c =? 160)%N.

(** [string.punctuation], the 32 ASCII punctuation characters
    (code 34 is the double quote). *)
Definition punctuation : string :=
  String "!" (String (ascii_of_N 34) "#$%&'()*+,-./:;<=>?@[\]^_`{|}~").

(** A translation table is a dict from characters to [Some d] (replace by
    [d]) or [None] (delete). *)
Abbreviation table := (gmap ascii (option ascii)).

Fixpoint zip (x y : string) : list (ascii * option ascii) :=
  match x, y with
  | String a x', String b y' => (a, Some b) :: zip x' y'
  | _, _ => []
  end.

(** [str.maketrans(x, y, z)], for [x] and [y] of one length: characters of
    [x] go to the characters of [y] at the same place, characters of [z] are
    deleted.  A later entry of the dict replaces an earlier one, and [z] is
    written last. *)
Definition maketrans (x y z : string) : table :=
  list_to_map (((fun c => (c, None)) <$> list_ascii_of_string z) ++ rev (zip x y)).

(** [s.translate(t)]: characters without an entry are kept. *)
Fixpoint translate (t : table) (s : string) : string :=
  match s with
  | EmptyString => EmptyString
  | String c s' =>
      match t !! c with
      | Some None => translate t s'
      | Some (Some d) => String d (translate t s')
      | None => String c (translate t s')
      end
  end.

(** [s.split()] with no separator: the maximal runs of characters that are
    not whitespace, in order; [word] is the run read so far. *)
Fixpoint split_from (word s : string) : list string :=
  match s with
  | EmptyString => if decide (word = "") then [] else [word]
  | String c s' =>
      if isspace c
      then (if decide (word = "") then split_from "" s'
            else word :: split_from "" s')
      else split_from (word +:+ String c "") s'
  end.

Definition split (s : string) : list string := split_from "" s.

(** [sep.join(words)] *)
Definition join (sep : string) (words : list string) : string :=
  String.concat sep words.

(** The characters of a string, for statements about "every character". *)
Definition chars (s : string) : list ascii := list_ascii_of_string s.

(** A word: not empty, and no whitespace in it. *)
Definition word (w : string) : Prop :=
  w ≠ "" ∧ Forall (fun c => isspace c = false) (chars w).

End Py.

(** ** Cell 1: [preprocess_text] *)
Section Preprocess.

(** scikit-learn's frozenset of English stop words, imported by cell 1. *)
Variable ENGLISH_STOP_WORDS : gset string.

Definition preprocess_text (text : string) : string :=
  let text := Py.lower text in
  let text := Py.translate (Py.maketrans "" "" Py.punctuation) text in
  let tokens := Py.split text in
  let tokens := filter (fun word => word ∉ ENGLISH_STOP_WORDS) tokens in
  Py.join " " tokens.

(** What [preprocess_text] keeps of a text, as a list of words. *)
Definition kept_words (text : string) : list string :=
  filter (fun w => w ∉ ENGLISH_STOP_WORDS)
    (Py.split (Py.translate (Py.maketrans "" "" Py.punctuation) (Py.lower text))).

End Preprocess.

(** ** Exceptions, data frames and the file system *)

(** The exceptions a run can end with.  [SklearnError] stands for whatever
    a scikit-learn call raises ([ValueError] for an empty vocabulary, for an
    empty training set, for a single class, ...). *)
Inductive exn : Type :=
  | FileNotFoundError (path : string)
  | ParserError
  | KeyError (key : string)
  | AttributeError (attr : string)
  | SklearnError (msg : string).

(** What [pd.read_csv] puts in a cell: a string, an integer, or NaN for a
    field that is missing. *)
Inductive value : Type :=
  | VStr (s : string)
  | VInt (z : Z)
  | VNaN.

Global Instance value_eq_dec : EqDecision value.
Proof. solve_decision. Defined.

(** A data frame: its column labels and, per row, the cell under each
    label. *)
Record DataFrame : Type := {
  columns : list string;
  rows : list (gmap string value)
}.

(** [df[key]]: the column as a sequence of cells, [KeyError] for a label
    the frame does not have. *)
Definition getitem (df : DataFrame) (key : string) : exn + list value :=
  if decide (key ∈ columns df)
  then inr ((fun r => default VNaN (r !! key)) <$> rows df)
  else inl (KeyError key).

(** [df[key] = series], for a series over the frame's own index: the column
    is replaced, or appended when the label is new. *)
Definition setitem (df : DataFrame) (key : string) (series : list value) : DataFrame :=
  {| columns := if decide (key ∈ columns df) then columns df else columns df ++ [key];
     rows := zip_with (fun r v => <[key := v]> r) (rows df) series |}.

(** What [pd.read_csv] finds at a path. *)
Inductive file_state : Type :=
  | Missing
  | Unparsable
  | Table (df : DataFrame).

Definition filesystem : Type := string → file_state.

Definition read_csv (fs : filesystem) (path : string) : exn + DataFrame :=
  match fs path with
  | Missing => inl (FileNotFoundError path)
  | Unparsable => inl ParserError
  | Table df => inr df
  end.

(** ** The scikit-learn interface *)

(** Constructor arguments of [SVC]; the notebook sets [kernel] and leaves
    the defaults [probability=False], [random_state=None]. *)
Record SVC_params : Type := {
  kernel : string;
  probability : bool;
  random_state : option Z
}.

Definition SVC (kernel : string) : SVC_params :=
  {| kernel := kernel; probability := false; random_state := None |}.

Inductive average : Type := Binary | Micro | Macro | Weighted.

(** The operations of scikit-learn (and numpy's generator) that the cells
    call.  A call returns a value or raises, [inl msg]. *)
Record Sklearn : Type := {
  float : Type;
  rng : Type;
  RandomState : Z → rng;
  nb_fitted : Type;
  svc_fitted : Type;
  (* TfidfVectorizer(max_features=m).fit_transform(docs).toarray() *)
  tfidf_fit_transform : option nat → list value → string + list (list float);
  (* ShuffleSplit with the generator it is given *)
  shuffle_split :
    rng → Q → list (list float) → list value →
    string + (list (list float) * list (list float) * list value * list value);
  (* MultinomialNB().fit / .predict *)
  nb_fit : list (list float) → list value → string + nb_fitted;
  nb_predict : nb_fitted → list (list float) → string + list value;
  (* SVC(...).fit, with numpy's global generator / .predict *)
  svc_fit : SVC_params → rng → list (list float) → list value → string + svc_fitted;
  svc_predict : svc_fitted → list (list float) → string + list value;
  accuracy_score : list value → list value → string + float;
  f1_score : list value → list value → average → string + float
}.

(** [check_random_state(seed)]: an int seeds a fresh generator, [None] is
    numpy's global one. *)
Definition check_random_state (lib : Sklearn) (seed : option Z) (global : rng lib) : rng lib :=
  match seed with
  | Some s => RandomState lib s
  | None => global
  end.

(** [train_test_split(X, y, test_size=t, random_state=seed)] *)
Definition train_test_split (lib : Sklearn) (global : rng lib)
    (X : list (list (float lib))) (y : list value) (test_size : Q) (seed : option Z) :=
  shuffle_split lib (check_random_state lib seed global) test_size X y.

(** What the documentation of those calls promises, as far as a statement
    below rests on it. *)
Record SklearnLaws (lib : Sklearn) : Prop := {
  (* fit_transform returns an (n_samples, n_features) matrix, and
     max_features caps n_features *)
  fit_transform_rows : ∀ m docs X,
    tfidf_fit_transform lib m docs = inr X → length X = length docs;
  fit_transform_columns : ∀ m docs X,
    tfidf_fit_transform lib (Some m) docs = inr X →
    Forall (fun row => (length row ≤ m)%nat) X;
  (* predict returns one label per row *)
  nb_predict_length : ∀ model X p,
    nb_predict lib model X = inr p → length p = length X;
  svc_predict_length : ∀ model X p,
    svc_predict lib model X = inr p → length p = length X;
  (* SVC draws random numbers for probability estimates only *)
  svc_fit_global : ∀ params g1 g2 X y,
    probability params = false →
    svc_fit lib params g1 X y = svc_fit lib params g2 X y
}.

(** ** Runs of the notebook *)

(** The four code cells, by what their headings call them. *)
Inductive step : Type := Preprocess | Vectorize | Fit | Score.

(** The library entry points the cells call. *)
Inductive api : Type :=
  | call_read_csv
  | call_apply
  | call_fit_transform
  | call_train_test_split
  | call_nb_fit
  | call_svc_fit
  | call_nb_predict
  | call_svc_predict
  | call_accuracy_score
  | call_f1_score
  | call_print.

Global Instance step_eq_dec : EqDecision step.
Proof. solve_decision. Defined.

Global Instance api_eq_dec : EqDecision api.
Proof. solve_decision. Defined.

(** An argument of [print]; a call prints its arguments on one line, a
    space between them. *)
Inductive printed (lib : Sklearn) : Type :=
  | PStr (s : string)
  | PFloat (x : float lib).

Arguments PStr {lib} s.
Arguments PFloat {lib} x.

(** What a run leaves behind: the lines on the console and the calls made,
    oldest first (a call is recorded when it starts). *)
Record state (lib : Sklearn) : Type := {
  stdout : list (list (printed lib));
  calls : list (step * api)
}.

Arguments stdout {lib} s.
Arguments calls {lib} s.

(** A computation changes the state and returns a value or raises: the
    state reached when it raises is kept, nothing is caught anywhere. *)
Definition M (lib : Sklearn) (A : Type) : Type := state lib → state lib * (exn + A).

Global Instance M_ret (lib : Sklearn) : MRet (M lib) :=
  fun A a s => (s, inr a).

Global Instance M_bind (lib : Sklearn) : MBind (M lib) :=
  fun A B f m s =>
    match m s with
    | (s', inl e) => (s', inl e)
    | (s', inr a) => f a s'
    end.

(** An operation that only returns or raises. *)
Definition lift {lib : Sklearn} {A : Type} (r : exn + A) : M lib A :=
  fun s => (s, r).

(** A library call made by cell [c]. *)
Definition call {lib : Sklearn} {A : Type} (c : step) (f : api) (r : exn + A) : M lib A :=
  fun s => ({| stdout := stdout s; calls := calls s ++ [(c, f)] |}, r).

(** An exception out of scikit-learn. *)
Definition sklearn {A : Type} (r : string + A) : exn + A :=
  match r with
  | inl msg => inl (SklearnError msg)
  | inr a => inr a
  end.

(** [print(...)] in cell 4. *)
Definition print {lib : Sklearn} (args : list (printed lib)) : M lib () :=
  fun s => ({| stdout := stdout s ++ [args]; calls := calls s ++ [(Score, call_print)] |}, inr ()).

(** [series.apply(f)]: [f] on each cell in order, up to the first that
    raises. *)
Fixpoint Series_apply (f : value → exn + value) (series : list value) : exn + list value :=
  match series with
  | [] => inr []
  | v :: rest =>
      match f v with
      | inl e => inl e
      | inr v' =>
          match Series_apply f rest with
          | inl e => inl e
          | inr rest' => inr (v' :: rest')
          end
      end
  end.

(** The variables the notebook has bound when its last cell is done. *)
Record namespace (lib : Sklearn) : Type := {
  ns_dataset : DataFrame;
  ns_X : list (list (float lib));
  ns_y : list value;
  ns_X_train : list (list (float lib));
  ns_X_test : list (list (float lib));
  ns_y_train : list value;
  ns_y_test : list value;
  ns_nb_model : nb_fitted lib;
  ns_svm_model : svc_fitted lib;
  ns_nb_predictions : list value;
  ns_nb_accuracy : float lib;
  ns_nb_f1 : float lib;
  ns_svm_predictions : list value;
  ns_svm_accuracy : float lib;
  ns_svm_f1 : float lib
}.

Arguments ns_dataset {lib} n.
Arguments ns_X {lib} n.
Arguments ns_y {lib} n.
Arguments ns_X_train {lib} n.
Arguments ns_X_test {lib} n.
Arguments ns_y_train {lib} n.
Arguments ns_y_test {lib} n.
Arguments ns_nb_model {lib} n.
Arguments ns_svm_model {lib} n.
Arguments ns_nb_predictions {lib} n.
Arguments ns_nb_accuracy {lib} n.
Arguments ns_nb_f1 {lib} n.
Arguments ns_svm_predictions {lib} n.
Arguments ns_svm_accuracy {lib} n.
Arguments ns_svm_f1 {lib} n.

Section Notebook.

Variable ENGLISH_STOP_WORDS : gset string.
Variable lib : Sklearn.
(** The files on disk, and numpy's global generator as the kernel starts. *)
Variable fs : filesystem.
Variable global : rng lib.

(** [preprocess_text(text)] on a cell of the frame: only a [str] has
    [lower]. *)
Definition preprocess_text_on (text : value) : exn + value :=
  match text with
  | VStr s => inr (VStr (preprocess_text ENGLISH_STOP_WORDS s))
  | VInt _ | VNaN => inl (AttributeError "lower")
  end.

(** Cell 1: load the file and add the cleaned column. *)
Definition cell1 : M lib DataFrame :=
  dataset ← call Preprocess call_read_csv (read_csv fs "nlp_dataset.csv");
  comment ← lift (getitem dataset "Comment");
  processed ← call Preprocess call_apply (Series_apply preprocess_text_on comment);
  mret (setitem dataset "Processed_Comment" processed).

(** Cell 2: the TF-IDF matrix and the labels. *)
Definition cell2 (dataset : DataFrame) : M lib (list (list (float lib)) * list value) :=
  processed ← lift (getitem dataset "Processed_Comment");
  X ← call Vectorize call_fit_transform
        (sklearn (tfidf_fit_transform lib (Some 500%nat) processed));
  y ← lift (getitem dataset "Emotion");
  mret (X, y).

(** Cell 3: the 80/20 split, then the two fits. *)
Definition cell3 (X : list (list (float lib))) (y : list value) :
    M lib (list (list (float lib)) * list (list (float lib)) * list value * list value
           * nb_fitted lib * svc_fitted lib) :=
  '(X_train, X_test, y_train, y_test) ←
      call Fit call_train_test_split
        (sklearn (train_test_split lib global X y 0.2%Q (Some 42%Z)));
  nb_model ← call Fit call_nb_fit (sklearn (nb_fit lib X_train y_train));
  svm_model ← call Fit call_svc_fit
        (sklearn (svc_fit lib (SVC "linear") global X_train y_train));
  mret (X_train, X_test, y_train, y_test, nb_model, svm_model).

(** Cell 4: score both models, then print. *)
Definition cell4 (X_test : list (list (float lib))) (y_test : list value)
    (nb_model : nb_fitted lib) (svm_model : svc_fitted lib) :
    M lib (list value * float lib * float lib * list value * float lib * float lib) :=
  nb_predictions ← call Score call_nb_predict (sklearn (nb_predict lib nb_model X_test));
  nb_accuracy ← call Score call_accuracy_score
        (sklearn (accuracy_score lib y_test nb_predictions));
  nb_f1 ← call Score call_f1_score (sklearn (f1_score lib y_test nb_predictions Weighted));
  svm_predictions ← call Score call_svc_predict
        (sklearn (svc_predict lib svm_model X_test));
  svm_accuracy ← call Score call_accuracy_score
        (sklearn (accuracy_score lib y_test svm_predictions));
  svm_f1 ← call Score call_f1_score
        (sklearn (f1_score lib y_test svm_predictions Weighted));
  print [PStr "Naive Bayes - Accuracy:"; PFloat nb_accuracy; PStr "F1-Score:"; PFloat nb_f1];;
  print [PStr "SVM - Accuracy:"; PFloat svm_accuracy; PStr "F1-Score:"; PFloat svm_f1];;
  mret (nb_predictions, nb_accuracy, nb_f1, svm_predictions, svm_accuracy, svm_f1).

(** The notebook, run top to bottom. *)
Definition notebook : M lib (namespace lib) :=
  dataset ← cell1;
  '(X, y) ← cell2 dataset;
  '(X_train, X_test, y_train, y_test, nb_model, svm_model) ← cell3 X y;
  '(nb_predictions, nb_accuracy, nb_f1, svm_predictions, svm_accuracy, svm_f1) ←
      cell4 X_test y_test nb_model svm_model;
  mret {| ns_dataset := dataset; ns_X := X; ns_y := y;
          ns_X_train := X_train; ns_X_test := X_test;
          ns_y_train := y_train; ns_y_test := y_test;
          ns_nb_model := nb_model; ns_svm_model := svm_model;
          ns_nb_predictions := nb_predictions;
          ns_nb_accuracy := nb_accuracy; ns_nb_f1 := nb_f1;
          ns_svm_predictions := svm_predictions;
          ns_svm_accuracy := svm_accuracy; ns_svm_f1 := svm_f1 |}.

(** A fresh kernel: nothing printed, nothing called. *)
Definition fresh : state lib := {| stdout := []; calls := [] |}.

Definition run : state lib * (exn + namespace lib) := notebook fresh.

End Notebook.

Arguments fresh {lib}.

(** ** What a run is observed by *)

(** The calls of a run that completes, in the order of the source. *)
Definition schedule : list (step * api) :=
  [ (Preprocess, call_read_csv); (Preprocess, call_apply);
    (Vectorize, call_fit_transform);
    (Fit, call_train_test_split); (Fit, call_nb_fit); (Fit, call_svc_fit);
    (Score, call_nb_predict); (Score, call_accuracy_score); (Score, call_f1_score);
    (Score, call_svc_predict); (Score, call_accuracy_score); (Score, call_f1_score);
    (Score, call_print); (Score, call_print) ].

(** The same calls, cell by cell; cell 4 scores, then prints. *)
Definition cell1_calls : list (step * api) :=
  [ (Preprocess, call_read_csv); (Preprocess, call_apply) ].

Definition cell2_calls : list (step * api) :=
  [ (Vectorize, call_fit_transform) ].

Definition cell3_calls : list (step * api) :=
  [ (Fit, call_train_test_split); (Fit, call_nb_fit); (Fit, call_svc_fit) ].

Definition scoring_calls : list (step * api) :=
  [ (Score, call_nb_predict); (Score, call_accuracy_score); (Score, call_f1_score);
    (Score, call_svc_predict); (Score, call_accuracy_score); (Score, call_f1_score) ].

Definition printing_calls : list (step * api) :=
  [ (Score, call_print); (Score, call_print) ].

(** A state after more calls and nothing printed. *)
Definition logged {lib : Sklearn} (s : state lib) (cs : list (step * api)) : state lib :=
  {| stdout := stdout s; calls := calls s ++ cs |}.

(** The steps a sequence of calls goes through: one entry per maximal run
    of calls of the same step. *)
Fixpoint steps_of (cs : list (step * api)) : list step :=
  match cs with
  | [] => []
  | (c, _) :: rest =>
      match steps_of rest with
      | c' :: later => if decide (c = c') then c' :: later else c :: c' :: later
      | [] => [c]
      end
  end.

(** The line [print(label, accuracy, "F1-Score:", f1)] writes. *)
Definition report {lib : Sklearn} (label : string) (accuracy f1 : float lib) :
    list (printed lib) :=
  [PStr label; PFloat accuracy; PStr "F1-Score:"; PFloat f1].

Definition is_number {lib : Sklearn} (p : printed lib) : bool :=
  match p with
  | PFloat _ => true
  | PStr _ => false
  end.

(** How many numbers the console shows. *)
Definition numbers_printed {lib : Sklearn} (out : list (list (printed lib))) : nat :=
  length (filter (fun p => is_number p = true) (mjoin out)).

Definition is_str (v : value) : bool :=
  match v with
  | VStr _ => true
  | VInt _ | VNaN => false
  end.

(** The inputs the run cannot use, each with the exception the library
    raises on it: no file, a file pandas cannot parse, a comment that is not
    a string. *)
Inductive bad_input (fs : filesystem) : exn → Prop :=
  | bad_missing :
      fs "nlp_dataset.csv" = Missing →
      bad_input fs (FileNotFoundError "nlp_dataset.csv")
  | bad_unparsable :
      fs "nlp_dataset.csv" = Unparsable →
      bad_input fs ParserError
  | bad_comment (df : DataFrame) (comment : list value) :
      fs "nlp_dataset.csv" = Table df →
      getitem df "Comment" = inr comment →
      Exists (fun v => is_str v = false) comment →
      bad_input fs (AttributeError "lower").

(** What can raise in the notebook's own steps, outside scikit-learn:
    reading the file, looking a column up, cleaning a comment. *)
Inductive own_error (stop : gset string) (fs : filesystem) : exn → Prop :=
  | raises_read (e : exn) :
      read_csv fs "nlp_dataset.csv" = inl e →
      own_error stop fs e
  | raises_comment (df : DataFrame) (e : exn) :
      read_csv fs "nlp_dataset.csv" = inr df →
      getitem df "Comment" = inl e →
      own_error stop fs e
  | raises_apply (df : DataFrame) (comment : list value) (e : exn) :
      read_csv fs "nlp_dataset.csv" = inr df →
      getitem df "Comment" = inr comment →
      Series_apply (preprocess_text_on stop) comment = inl e →
      own_error stop fs e
  | raises_column (df : DataFrame) (comment processed : list value) (key : string) (e : exn) :
      read_csv fs "nlp_dataset.csv" = inr df →
      getitem df "Comment" = inr comment →
      Series_apply (preprocess_text_on stop) comment = inr processed →
      key ∈ ["Processed_Comment"; "Emotion"] →
      getitem (setitem df "Processed_Comment" processed) key = inl e →
      own_error stop fs e.

(** A run that completed, or not. *)
Definition completed {lib : Sklearn} (r : state lib * (exn + namespace lib)) : Prop :=
  match r.2 with
  | inr _ => True
  | inl _ => False
  end.

(** ** A small executable instance of the interface

    [Stub.lib] implements every operation of [Sklearn] with exact rationals
    in place of floats: a bag-of-words count matrix, a split that takes the
    test rows from where the generator points, a majority-label and a
    first-label classifier, and the two metrics.  It is not scikit-learn; it
    lets the notebook run on concrete inputs and shows that [SklearnLaws]
    can be met. *)
Module Stub.

Definition tokens (doc : value) : list string :=
  match doc with
  | VStr s => Py.split s
  | VInt _ | VNaN => []
  end.

Definition count_of {A : Type} `{EqDecision A} (x : A) (l : list A) : nat :=
  length (filter (fun x' => x' = x) l).

Definition of_nat (n : nat) : Q := inject_Z (Z.of_nat n).

Definition fit_transform (max_features : option nat) (docs : list value) :
    string + list (list Q) :=
  let vocabulary := remove_dups (mjoin (tokens <$> docs)) in
  let terms :=
    match max_features with
    | Some m => take m vocabulary
    | None => vocabulary
    end in
  if decide (vocabulary = []) then inl "empty vocabulary"
  else inr ((fun doc => (fun t => of_nat (count_of t (tokens doc))) <$> terms) <$> docs).

Definition split (g : Z) (test_size : Q) (X : list (list Q)) (y : list value) :
    string + (list (list Q) * list (list Q) * list value * list value) :=
  let n := length X in
  let n_test := Z.to_nat (Qceiling (test_size * of_nat n)) in
  let start := Z.to_nat (g mod Z.of_nat n) in
  if decide (length y = n) then
    if decide (n_test < n)%nat then
      inr (drop n_test (rotate start X), take n_test (rotate start X),
           drop n_test (rotate start y), take n_test (rotate start y))
    else inl "the resulting train set will be empty"
  else inl "inconsistent numbers of samples".

(** The label seen most often, the earliest one among equals. *)
Definition majority (y : list value) : option value :=
  foldr (fun c best =>
           match best with
           | Some b => if decide (count_of b y ≤ count_of c y)%nat then Some c else Some b
           | None => Some c
           end)
        None (remove_dups y).

Definition fit_nb (X : list (list Q)) (y : list value) : string + value :=
  match majority y with
  | Some c => inr c
  | None => inl "no samples"
  end.

Definition fit_svc (params : SVC_params) (g : Z) (X : list (list Q)) (y : list value) :
    string + value :=
  if decide (length (remove_dups y) < 2)%nat
  then inl "the number of classes has to be greater than one"
  else
    let i := if probability params then Z.to_nat (g mod Z.of_nat (length y)) else 0%nat in
    match y !! i with
    | Some c => inr c
    | None => inl "no samples"
    end.

Definition predict (model : value) (X : list (list Q)) : string + list value :=
  inr ((fun _ => model) <$> X).

Definition ratio (a b : nat) : Q :=
  if decide (b = 0)%nat then 0%Q else Qred (Qmake (Z.of_nat a) (Pos.of_nat b)).

Definition accuracy (y_true y_pred : list value) : string + Q :=
  if decide (length y_true = length y_pred)
  then inr (ratio (count_of true (zip_with (fun a b => bool_decide (a = b)) y_true y_pred))
                  (length y_true))
  else inl "inconsistent numbers of samples".

(** F1 of one label: 2 TP / (2 TP + FP + FN). *)
Definition f1_of (c : value) (y_true y_pred : list value) : Q :=
  let tp := count_of (c, c) (zip y_true y_pred) in
  ratio (2 * tp) (count_of c y_true + count_of c y_pred).

Definition f1 (y_true y_pred : list value) (avg : average) : string + Q :=
  if decide (length y_true = length y_pred) then
    match avg with
    | Weighted =>
        inr (Qred (foldr Qplus 0%Q
               ((fun c => (f1_of c y_true y_pred
                           * ratio (count_of c y_true) (length y_true))%Q)
                <$> remove_dups (y_true ++ y_pred))))
    | Binary | Micro | Macro => inl "average not provided"
    end
  else inl "inconsistent numbers of samples".

Definition lib : Sklearn := {|
  float := Q;
  rng := Z;
  RandomState := fun seed => seed;
  nb_fitted := value;
  svc_fitted := value;
  tfidf_fit_transform := fit_transform;
  shuffle_split := split;
  nb_fit := fit_nb;
  nb_predict := predict;
  svc_fit := fit_svc;
  svc_predict := predict;
  accuracy_score := accuracy;
  f1_score := f1
|}.

End Stub.

(** ** Concrete inputs *)
Module Demo.

Definition stop_words : gset string := {[ "the"; "is"; "a"; "i"; "am"; "so"; "this" ]}.

Definition row (comment emotion : value) : gmap string value :=
  {[ "Comment" := comment; "Emotion" := emotion ]}.

Definition frame : DataFrame := {|
  columns := ["Comment"; "Emotion"];
  rows := [ row (VStr "I am SO happy today!") (VStr "joy");
            row (VStr "This is a sad, sad day.") (VStr "sadness");
            row (VStr "What a happy surprise") (VStr "joy");
            row (VStr "I feel sad and alone...") (VStr "sadness");
            row (VStr "Happy happy joy") (VStr "joy");
            row (VStr "The dog is angry") (VStr "anger");
            row (VStr "so sad") (VStr "sadness");
            row (VStr "Angry!! angry words") (VStr "anger");
            row (VStr "a happy end") (VStr "joy");
            row (VStr "alone, sad") (VStr "sadness") ]
|}.

(** The same data under other column labels. *)
Definition relabelled : DataFrame := {|
  columns := ["text"; "label"];
  rows := [ {[ "text" := VStr "I am SO happy today!"; "label" := VStr "joy" ]};
            {[ "text" := VStr "This is a sad, sad day."; "label" := VStr "sadness" ]} ]
|}.

(** A frame whose second comment is missing. *)
Definition holed : DataFrame := {|
  columns := ["Comment"; "Emotion"];
  rows := [ row (VStr "I am SO happy today!") (VStr "joy");
            row VNaN (VStr "sadness") ]
|}.

Definition disk (df : DataFrame) : filesystem :=
  fun path => if decide (path = "nlp_dataset.csv") then Table df else Missing.


(** Where the notebook ends on [frame], whatever the global generator
    (here 7). *)
Definition final_state : state Stub.lib :=
  ltac:(let r := eval vm_compute in (run stop_words Stub.lib (disk frame) 7%Z) in
        match r with (?s, _) => exact s end).

Definition final_namespace : namespace Stub.lib :=
  ltac:(let r := eval vm_compute in (run stop_words Stub.lib (disk frame) 7%Z) in
        match r with (_, inr ?ns) => exact ns end).

End Demo.

(** Closes an equation between closed terms by evaluating both sides. *)
Ltac by_evaluation :=
  lazymatch goal with
  | |- ?l = ?r => vm_cast_no_check (eq_refl r)
  end.

(** The same for two closed terms that are both to be evaluated: each is
    compared with the value they share. *)
Ltac by_common_value :=
  lazymatch goal with
  | |- ?l = ?r =>
      let v := eval vm_compute in l in
      apply (eq_trans (y := v));
      [ vm_cast_no_check (eq_refl v) | symmetry; vm_cast_no_check (eq_refl v) ]
  end.

(** ** What a run yields, the frame apart *)

(** The variables bound after cell 1, in the order the cells bind them. *)
Definition results {lib : Sklearn} (ns : namespace lib) :=
  (ns_X ns, ns_y ns, ns_X_train ns, ns_X_test ns, ns_y_train ns, ns_y_test ns,
   ns_nb_model ns, ns_svm_model ns,
   ns_nb_predictions ns, ns_nb_accuracy ns, ns_nb_f1 ns,
   ns_svm_predictions ns, ns_svm_accuracy ns, ns_svm_f1 ns).

(** A run without its [dataset] variable: the console, the calls, and the
    exception or the other variables. *)
Definition outcome {lib : Sklearn} (r : state lib * (exn + namespace lib)) :=
  (r.1, match r.2 with
        | inl e => inl e
        | inr ns => inr (results ns)
        end).

(** ** More concrete inputs *)
Module Demo2.

(** The cells of a column, for a label the frame has. *)
Definition column (df : DataFrame) (key : string) : list value :=
  match getitem df key with
  | inr cells => cells
  | inl _ => []
  end.

Definition row (id : Z) (comment emotion : value) : gmap string value :=
  {[ "Id" := VInt id; "Comment" := comment; "Emotion" := emotion ]}.

(** [Demo.frame] typed another way: other letter case and punctuation, more
    blanks, and one more column. *)
Definition shouted : DataFrame := {|
  columns := ["Id"; "Comment"; "Emotion"];
  rows := [ row 1 (VStr "i am so HAPPY today") (VStr "joy");
            row 2 (VStr "THIS IS A SAD SAD DAY") (VStr "sadness");
            row 3 (VStr "what a happy surprise?!") (VStr "joy");
            row 4 (VStr "I   feel sad and alone") (VStr "sadness");
            row 5 (VStr "happy, happy, joy") (VStr "joy");
            row 6 (VStr "the dog is ANGRY.") (VStr "anger");
            row 7 (VStr "So Sad") (VStr "sadness");
            row 8 (VStr "angry angry words") (VStr "anger");
            row 9 (VStr "A Happy End!") (VStr "joy");
            row 10 (VStr " alone sad ") (VStr "sadness") ]
|}.

(** A frame with comments and no label column. *)
Definition unlabelled : DataFrame := {|
  columns := ["Comment"];
  rows := [ {[ "Comment" := VStr "I am SO happy today!" ]};
            {[ "Comment" := VStr "This is a sad, sad day." ]} ]
|}.

End Demo2.

(** ** Examples *)

Example preprocess_text_demo :
  preprocess_text {["the"; "is"; "a"]} "The CAT, is on   a Mat!" = "cat on mat".
Proof. vm_compute. reflexivity. Qed.

(** Latin-1 capitals are lowered too, and the times sign is left alone. *)
Example lower_latin1 :
  Py.code <$> Py.chars (Py.lower (string_of_list_ascii (ascii_of_N <$> [65; 201; 215; 222]%N)))
  = [97; 233; 215; 254]%N.
Proof. reflexivity. Qed.

(** The table the notebook builds has exactly Python's punctuation. *)
Example punctuation_codes :
  Py.code <$> Py.chars Py.punctuation
  = [33; 34; 35; 36; 37; 38; 39; 40; 41; 42; 43; 44; 45; 46; 47; 58; 59; 60;
     61; 62; 63; 64; 91; 92; 93; 94; 95; 96; 123; 124; 125; 126]%N.
Proof. reflexivity. Qed.

(** ** Facts about the string built-ins *)
Module PyFacts.
Import Py.

Lemma string_app_cons (c : ascii) (s t : string) : String c s +:+ t = String c (s +:+ t).
Proof. reflexivity. Qed.

Lemma string_app_empty_r (s : string) : s +:+ "" = s.
Proof. induction s as [|c s IH]; [done|]. by rewrite string_app_cons, IH. Qed.

Lemma string_app_assoc (s t u : string) : (s +:+ t) +:+ u = s +:+ (t +:+ u).
Proof. induction s as [|c s IH]; [done|]. by rewrite !string_app_cons, IH. Qed.

Lemma chars_app (s t : string) : chars (s +:+ t) = chars s ++ chars t.
Proof.
  induction s as [|c s IH]; [done|].
  rewrite string_app_cons. unfold chars in *. simpl. by rewrite IH.
Qed.

(** Lowering a character never yields a capital. *)
Lemma isupper_lower_char (c : ascii) : isupper (lower_char c) = false.
Proof. destruct c as [[] [] [] [] [] [] [] []]; reflexivity. Qed.

Lemma lower_no_upper (s : string) :
  Forall (fun c => isupper c = false) (chars (lower s)).
Proof.
  induction s as [|c s IH]; [constructor|].
  constructor; [apply isupper_lower_char | exact IH].
Qed.

(** The table [maketrans "" "" z] deletes the characters of [z] and has no
    other entry. *)
Lemma maketrans_delete_lookup (z : string) (c : ascii) :
  maketrans "" "" z !! c = if decide (c ∈ chars z) then Some None else None.
Proof.
  unfold maketrans, chars. change (rev (zip "" "")) with (@nil (ascii * option ascii)).
  rewrite app_nil_r.
  induction (list_ascii_of_string z) as [|d l IH].
  - rewrite fmap_nil, list_to_map_nil, lookup_empty.
    case_decide as H; [|done]. by apply elem_of_nil in H.
  - rewrite fmap_cons, list_to_map_cons, lookup_insert, IH.
    destruct (decide (d = c)) as [->|Hdc].
    + by rewrite decide_True by apply list_elem_of_here.
    + destruct (decide (c ∈ l)).
      * by rewrite decide_True by by apply list_elem_of_further.
      * by rewrite decide_False by by apply not_elem_of_cons.
Qed.

(** A table that only deletes keeps a property of every character. *)
Lemma translate_delete_Forall (P : ascii → Prop) (z s : string) :
  Forall P (chars s) → Forall P (chars (translate (maketrans "" "" z) s)).
Proof.
  induction s as [|c s IH]; intros H; [constructor|].
  apply Forall_cons in H as [Hc Hs]. simpl.
  rewrite maketrans_delete_lookup. case_decide; [by apply IH|].
  constructor; [done | by apply IH].
Qed.

Lemma translate_delete_gone (z s : string) :
  Forall (fun c => c ∉ chars z) (chars (translate (maketrans "" "" z) s)).
Proof.
  induction s as [|c s IH]; [constructor|]. simpl.
  rewrite maketrans_delete_lookup. case_decide; [done|]. by constructor.
Qed.

(** The words [split] returns are made of the characters it read. *)
Lemma split_from_Forall (P : ascii → Prop) (s word : string) :
  Forall P (chars word) → Forall P (chars s) →
  Forall (fun w => Forall P (chars w)) (split_from word s).
Proof.
  revert word. induction s as [|c s IH]; intros word Hw Hs; simpl.
  - case_decide; [constructor | by repeat constructor].
  - apply Forall_cons in Hs as [Hc Hs].
    destruct (isspace c).
    + case_decide; [by apply IH | constructor; [done | by apply IH]].
    + apply IH; [|done]. rewrite chars_app. apply Forall_app. split; [done|].
      by repeat constructor.
Qed.

Lemma split_from_words (s w : string) :
  Forall (fun c => isspace c = false) (chars w) → Forall word (split_from w s).
Proof.
  revert w. induction s as [|c s IH]; intros w Hw; simpl.
  - case_decide; [constructor | by repeat constructor].
  - destruct (isspace c) eqn:Hc.
    + case_decide; [by apply IH | constructor; [done | by apply IH]].
    + apply IH. rewrite chars_app. apply Forall_app. split; [done|].
      by repeat constructor.
Qed.

Lemma split_words (s : string) : Forall word (split s).
Proof. apply split_from_words. constructor. Qed.

Lemma split_from_space (c : ascii) (w s : string) :
  isspace c = true →
  split_from w (String c s)
  = if decide (w = "") then split_from "" s else w :: split_from "" s.
Proof. intros H. simpl. by rewrite H. Qed.

(** Reading a run without whitespace only extends the current word. *)
Lemma split_from_run (t w s : string) :
  Forall (fun c => isspace c = false) (chars t) →
  split_from w (t +:+ s) = split_from (w +:+ t) s.
Proof.
  revert w. induction t as [|c t IH]; intros w Ht.
  - by rewrite string_app_empty_r.
  - apply Forall_cons in Ht as [Hc Ht]. rewrite string_app_cons. simpl. rewrite Hc.
    rewrite IH by done. by rewrite string_app_assoc.
Qed.

(** Splitting what [join] made of words gives the words back. *)
Lemma split_join (ws : list string) : Forall word ws → split (join " " ws) = ws.
Proof.
  unfold split, join. induction ws as [|w ws IH]; intros H; [done|].
  apply Forall_cons in H as [[Hne Hw] Hws]. specialize (IH Hws).
  destruct ws as [|w' ws].
  - simpl. rewrite <- (string_app_empty_r w) at 1. rewrite split_from_run by done.
    simpl. by case_decide.
  - change (String.concat " " (w :: w' :: ws))
      with (w +:+ String " " (String.concat " " (w' :: ws))).
    rewrite split_from_run by done. rewrite split_from_space by done.
    rewrite decide_False by done. by rewrite IH.
Qed.

(** The characters of a joined string are the separator's and the words'. *)
Lemma join_Forall (P : ascii → Prop) (sep : string) (ws : list string) :
  Forall P (chars sep) → Forall (fun w => Forall P (chars w)) ws →
  Forall P (chars (join sep ws)).
Proof.
  intros Hsep. unfold join. induction ws as [|w ws IH]; intros H; [constructor|].
  apply Forall_cons in H as [Hw Hws]. specialize (IH Hws).
  destruct ws as [|w' ws]; [done|].
  change (String.concat sep (w :: w' :: ws))
    with (w +:+ sep +:+ String.concat sep (w' :: ws)).
  rewrite !chars_app. by rewrite !Forall_app.
Qed.

End PyFacts.

Lemma Forall_filter_keep {A : Type} (P Q : A → Prop) `{!∀ x, Decision (P x)} (l : list A) :
  Forall Q l → Forall Q (filter P l).
Proof.
  rewrite !Forall_forall. intros HQ x [_ Hx]%list_elem_of_filter. by apply HQ.
Qed.

Lemma Forall_filter_holds {A : Type} (P : A → Prop) `{!∀ x, Decision (P x)} (l : list A) :
  Forall P (filter P l).
Proof. apply Forall_forall. by intros x [Hx _]%list_elem_of_filter. Qed.


(** ** Facts about runs *)

Section RunFacts.

Variable stop : gset string.
Variable lib : Sklearn.
Variable fs : filesystem.
Variable global : rng lib.

Lemma bind_unfold {A B : Type} (m : M lib A) (f : A → M lib B) (s : state lib) :
  (m ≫= f) s
  = match m s with
    | (s', inl e) => (s', inl e)
    | (s', inr a) => f a s'
    end.
Proof. reflexivity. Qed.

Lemma logged_nil (s : state lib) : logged s [] = s.
Proof. destruct s. unfold logged. simpl. by rewrite app_nil_r. Qed.

Lemma logged_logged (s : state lib) (cs cs' : list (step * api)) :
  logged (logged s cs) cs' = logged s (cs ++ cs').
Proof. unfold logged. simpl. by rewrite app_assoc. Qed.

Lemma call_unfold {A : Type} (c : step) (f : api) (r : exn + A) (s : state lib) :
  call c f r s = (logged s [(c, f)], r).
Proof. reflexivity. Qed.

(** *** Cell by cell *)

(** Cell 1 either stops at the first thing that raises, or has loaded the
    frame and added the cleaned column. *)
Lemma cell1_spec (s : state lib) :
  match cell1 stop lib fs s with
  | (s', inr dataset) =>
      s' = logged s cell1_calls
      ∧ ∃ df comment processed,
          read_csv fs "nlp_dataset.csv" = inr df
          ∧ getitem df "Comment" = inr comment
          ∧ Series_apply (preprocess_text_on stop) comment = inr processed
          ∧ dataset = setitem df "Processed_Comment" processed
  | (s', inl e) =>
      (∃ pre, pre `prefix_of` cell1_calls ∧ pre ≠ [] ∧ s' = logged s pre)
      ∧ own_error stop fs e
  end.
Proof.
  unfold cell1. rewrite bind_unfold, call_unfold.
  destruct (read_csv fs "nlp_dataset.csv") as [e|df] eqn:Hread.
  { split; [|by apply raises_read].
    exists [(Preprocess, call_read_csv)]. split_and!; [by eexists | done..]. }
  rewrite bind_unfold. unfold lift at 1.
  destruct (getitem df "Comment") as [e|comment] eqn:Hcol.
  { split; [|by eapply raises_comment].
    exists [(Preprocess, call_read_csv)]. split_and!; [by eexists | done..]. }
  rewrite bind_unfold, call_unfold, logged_logged.
  destruct (Series_apply (preprocess_text_on stop) comment) as [e|processed] eqn:Happly.
  { split; [|by eapply raises_apply]. by exists cell1_calls. }
  split; [done|]. by exists df, comment, processed.
Qed.

(** Cell 2: one scikit-learn call between two column reads. *)
Lemma cell2_spec (dataset : DataFrame) (s : state lib) :
  match cell2 lib dataset s with
  | (s', inr (X, y)) =>
      s' = logged s cell2_calls
      ∧ ∃ processed,
          getitem dataset "Processed_Comment" = inr processed
          ∧ tfidf_fit_transform lib (Some 500%nat) processed = inr X
          ∧ getitem dataset "Emotion" = inr y
  | (s', inl e) =>
      (∃ pre, pre `prefix_of` cell2_calls ∧ s' = logged s pre)
      ∧ ((∃ key, key ∈ ["Processed_Comment"; "Emotion"] ∧ getitem dataset key = inl e)
         ∨ ∃ msg, e = SklearnError msg)
  end.
Proof.
  unfold cell2. rewrite bind_unfold. unfold lift at 1.
  destruct (getitem dataset "Processed_Comment") as [e|processed] eqn:Hcol.
  { split.
    - exists []. split; [by eexists | by rewrite logged_nil].
    - left. exists "Processed_Comment". split; [|done]. apply list_elem_of_here. }
  rewrite bind_unfold, call_unfold.
  destruct (tfidf_fit_transform lib (Some 500%nat) processed) as [msg|X] eqn:Hfit; simpl.
  { split; [by exists cell2_calls | right; by exists msg]. }
  rewrite bind_unfold. unfold lift at 1.
  destruct (getitem dataset "Emotion") as [e|y] eqn:Hy.
  { split; [by exists cell2_calls|].
    left. exists "Emotion". split; [|done]. apply list_elem_of_further, list_elem_of_here. }
  split; [done|]. by exists processed.
Qed.

(** Cell 3: the split, the Naive Bayes fit, the SVM fit. *)
Lemma cell3_spec (X : list (list (float lib))) (y : list value) (s : state lib) :
  match cell3 lib global X y s with
  | (s', inr (X_train, X_test, y_train, y_test, nb_model, svm_model)) =>
      s' = logged s cell3_calls
      ∧ train_test_split lib global X y 0.2%Q (Some 42%Z)
        = inr (X_train, X_test, y_train, y_test)
      ∧ nb_fit lib X_train y_train = inr nb_model
      ∧ svc_fit lib (SVC "linear") global X_train y_train = inr svm_model
  | (s', inl e) =>
      (∃ pre, pre `prefix_of` cell3_calls ∧ s' = logged s pre)
      ∧ ∃ msg, e = SklearnError msg
  end.
Proof.
  unfold cell3. rewrite bind_unfold, call_unfold.
  destruct (train_test_split lib global X y 0.2%Q (Some 42%Z))
    as [msg|[[[X_train X_test] y_train] y_test]] eqn:Hsplit; simpl.
  { split; [|by exists msg]. eexists. split; [|done]. by eexists. }
  rewrite bind_unfold, call_unfold, logged_logged.
  destruct (nb_fit lib X_train y_train) as [msg|nb_model] eqn:Hnb; simpl.
  { split; [|by exists msg]. eexists. split; [|done]. by eexists. }
  rewrite bind_unfold, call_unfold, logged_logged.
  destruct (svc_fit lib (SVC "linear") global X_train y_train)
    as [msg|svm_model] eqn:Hsvc; simpl.
  { split; [|by exists msg]. eexists. split; [|done]. by eexists. }
  done.
Qed.

(** Cell 4: six scoring calls, any of which may raise, then the two
    prints, which come last and cannot. *)
Lemma cell4_spec (X_test : list (list (float lib))) (y_test : list value)
    (nb_model : nb_fitted lib) (svm_model : svc_fitted lib) (s : state lib) :
  match cell4 lib X_test y_test nb_model svm_model s with
  | (s', inr (nb_predictions, nb_accuracy, nb_f1,
              svm_predictions, svm_accuracy, svm_f1)) =>
      s' = {| stdout := stdout s ++ [report "Naive Bayes - Accuracy:" nb_accuracy nb_f1;
                                     report "SVM - Accuracy:" svm_accuracy svm_f1];
              calls := calls s ++ scoring_calls ++ printing_calls |}
      ∧ nb_predict lib nb_model X_test = inr nb_predictions
      ∧ accuracy_score lib y_test nb_predictions = inr nb_accuracy
      ∧ f1_score lib y_test nb_predictions Weighted = inr nb_f1
      ∧ svc_predict lib svm_model X_test = inr svm_predictions
      ∧ accuracy_score lib y_test svm_predictions = inr svm_accuracy
      ∧ f1_score lib y_test svm_predictions Weighted = inr svm_f1
  | (s', inl e) =>
      (∃ pre, pre `prefix_of` scoring_calls ∧ s' = logged s pre)
      ∧ ∃ msg, e = SklearnError msg
  end.
Proof.
  unfold cell4. rewrite bind_unfold, call_unfold.
  destruct (nb_predict lib nb_model X_test) as [msg|nb_predictions] eqn:?; simpl.
  { split; [|by exists msg]. eexists. split; [|done]. by eexists. }
  rewrite bind_unfold, call_unfold, logged_logged.
  destruct (accuracy_score lib y_test nb_predictions) as [msg|nb_accuracy] eqn:?; simpl.
  { split; [|by exists msg]. eexists. split; [|done]. by eexists. }
  rewrite bind_unfold, call_unfold, logged_logged.
  destruct (f1_score lib y_test nb_predictions Weighted) as [msg|nb_f1] eqn:?; simpl.
  { split; [|by exists msg]. eexists. split; [|done]. by eexists. }
  rewrite bind_unfold, call_unfold, logged_logged.
  destruct (svc_predict lib svm_model X_test) as [msg|svm_predictions] eqn:?; simpl.
  { split; [|by exists msg]. eexists. split; [|done]. by eexists. }
  rewrite bind_unfold, call_unfold, logged_logged.
  destruct (accuracy_score lib y_test svm_predictions) as [msg|svm_accuracy] eqn:?; simpl.
  { split; [|by exists msg]. eexists. split; [|done]. by eexists. }
  rewrite bind_unfold, call_unfold, logged_logged.
  destruct (f1_score lib y_test svm_predictions Weighted) as [msg|svm_f1] eqn:?; simpl.
  { split; [|by exists msg]. eexists. split; [|done]. by eexists. }
  split_and!; try done.
  unfold logged, report; simpl. f_equal; by rewrite <- !app_assoc.
Qed.

(** *** The whole run *)

Lemma schedule_cells :
  schedule = cell1_calls ++ cell2_calls ++ cell3_calls ++ scoring_calls ++ printing_calls.
Proof. reflexivity. Qed.

(** A run that stops early has made a proper prefix of the scheduled calls
    and printed nothing; a run that completes has made them all, has printed
    the two reports, and its variables are related as the cells compute
    them. *)
Lemma run_spec :
  match run stop lib fs global with
  | (s, inr ns) =>
      s = {| stdout := [report "Naive Bayes - Accuracy:" (ns_nb_accuracy ns) (ns_nb_f1 ns);
                        report "SVM - Accuracy:" (ns_svm_accuracy ns) (ns_svm_f1 ns)];
             calls := schedule |}
      ∧ (∃ df comment processed,
            read_csv fs "nlp_dataset.csv" = inr df
            ∧ getitem df "Comment" = inr comment
            ∧ Series_apply (preprocess_text_on stop) comment = inr processed
            ∧ ns_dataset ns = setitem df "Processed_Comment" processed)
      ∧ (∃ processed,
            getitem (ns_dataset ns) "Processed_Comment" = inr processed
            ∧ tfidf_fit_transform lib (Some 500%nat) processed = inr (ns_X ns)
            ∧ getitem (ns_dataset ns) "Emotion" = inr (ns_y ns))
      ∧ (train_test_split lib global (ns_X ns) (ns_y ns) 0.2%Q (Some 42%Z)
           = inr (ns_X_train ns, ns_X_test ns, ns_y_train ns, ns_y_test ns)
         ∧ nb_fit lib (ns_X_train ns) (ns_y_train ns) = inr (ns_nb_model ns)
         ∧ svc_fit lib (SVC "linear") global (ns_X_train ns) (ns_y_train ns)
           = inr (ns_svm_model ns))
      ∧ (nb_predict lib (ns_nb_model ns) (ns_X_test ns) = inr (ns_nb_predictions ns)
         ∧ accuracy_score lib (ns_y_test ns) (ns_nb_predictions ns)
           = inr (ns_nb_accuracy ns)
         ∧ f1_score lib (ns_y_test ns) (ns_nb_predictions ns) Weighted
           = inr (ns_nb_f1 ns)
         ∧ svc_predict lib (ns_svm_model ns) (ns_X_test ns) = inr (ns_svm_predictions ns)
         ∧ accuracy_score lib (ns_y_test ns) (ns_svm_predictions ns)
           = inr (ns_svm_accuracy ns)
         ∧ f1_score lib (ns_y_test ns) (ns_svm_predictions ns) Weighted
           = inr (ns_svm_f1 ns))
  | (s, inl e) =>
      (∃ pre, pre `prefix_of` schedule
              ∧ (0 < length pre < length schedule)%nat
              ∧ s = {| stdout := []; calls := pre |})
      ∧ (own_error stop fs e ∨ ∃ msg, e = SklearnError msg)
  end.
Proof.
  unfold run, notebook. rewrite schedule_cells.
  rewrite bind_unfold. pose proof (cell1_spec fresh) as H1.
  destruct (cell1 stop lib fs fresh) as [s1 [e|dataset]].
  { destruct H1 as [(pre & Hpre & Hne & ->) Hwhy]. split; [|by left].
    exists pre. split_and!; [|..|done].
    - by apply prefix_app_r.
    - destruct pre; [done|]. simpl. lia.
    - apply prefix_length in Hpre. rewrite !length_app. simpl in *. lia. }
  destruct H1 as [-> H1].
  rewrite bind_unfold. pose proof (cell2_spec dataset (logged fresh cell1_calls)) as H2.
  destruct (cell2 lib dataset _) as [s2 [e|[X y]]].
  { destruct H2 as [(pre & Hpre & ->) Hwhy]. split.
    2:{ destruct Hwhy as [(key & Hkey & Hget)|?]; [left|by right].
        destruct H1 as (df & comment & processed & ? & ? & ? & ->).
        by eapply raises_column. }
    exists (cell1_calls ++ pre). split_and!; [|..|done].
    - by apply prefix_app, prefix_app_r.
    - rewrite !length_app. simpl. lia.
    - apply prefix_length in Hpre. rewrite !length_app. simpl in *. lia. }
  destruct H2 as [-> H2]. rewrite logged_logged.
  rewrite bind_unfold. pose proof (cell3_spec X y (logged fresh (cell1_calls ++ cell2_calls))) as H3.
  destruct (cell3 lib global X y _)
    as [s3 [e|[[[[[X_train X_test] y_train] y_test] nb_model] svm_model]]].
  { destruct H3 as [(pre & Hpre & ->) Hwhy]. split; [|by right]. rewrite logged_logged.
    exists ((cell1_calls ++ cell2_calls) ++ pre). split_and!; [|..|done].
    - rewrite <- app_assoc. by apply prefix_app, prefix_app, prefix_app_r.
    - rewrite !length_app. simpl. lia.
    - apply prefix_length in Hpre. rewrite !length_app. simpl in *. lia. }
  destruct H3 as [-> H3]. rewrite logged_logged.
  rewrite bind_unfold.
  pose proof (cell4_spec X_test y_test nb_model svm_model
                (logged fresh ((cell1_calls ++ cell2_calls) ++ cell3_calls))) as H4.
  destruct (cell4 lib X_test y_test nb_model svm_model _)
    as [s4 [e|[[[[[nb_predictions nb_accuracy] nb_f1] svm_predictions] svm_accuracy] svm_f1]]].
  { destruct H4 as [(pre & Hpre & ->) Hwhy]. split; [|by right]. rewrite logged_logged.
    exists (((cell1_calls ++ cell2_calls) ++ cell3_calls) ++ pre). split_and!; [|..|done].
    - rewrite <- !app_assoc. by apply prefix_app, prefix_app, prefix_app, prefix_app_r.
    - rewrite !length_app. simpl. lia.
    - apply prefix_length in Hpre. rewrite !length_app. simpl in *. lia. }
  destruct H4 as [-> H4]. destruct H3 as (? & ? & ?), H4 as (? & ? & ? & ? & ? & ?).
  simpl. split_and!; done.
Qed.

End RunFacts.

(** *** Columns and cleaned series *)

Lemma getitem_length (df : DataFrame) (key : string) (col : list value) :
  getitem df key = inr col → length col = length (rows df).
Proof.
  unfold getitem. case_decide; [|done]. intros [= <-]. by rewrite length_fmap.
Qed.

Lemma getitem_present (df : DataFrame) (key : string) :
  key ∈ columns df → ∃ col, getitem df key = inr col.
Proof. intros H. unfold getitem. rewrite decide_True by done. by eexists. Qed.

Lemma setitem_columns (df : DataFrame) (key key' : string) (series : list value) :
  key' = key ∨ key' ∈ columns df → key' ∈ columns (setitem df key series).
Proof.
  intros [->|H]; simpl; case_decide; try done.
  - apply elem_of_app. right. apply list_elem_of_here.
  - apply elem_of_app. by left.
Qed.

Lemma setitem_rows (df : DataFrame) (key : string) (series : list value) :
  length series = length (rows df) →
  length (rows (setitem df key series)) = length (rows df).
Proof. intros H. simpl. rewrite length_zip_with. lia. Qed.

Lemma Series_apply_length (f : value → exn + value) (series result : list value) :
  Series_apply f series = inr result → length result = length series.
Proof.
  revert result. induction series as [|v rest IH]; intros result; simpl.
  - by intros [= <-].
  - destruct (f v); [done|]. destruct (Series_apply f rest); [done|].
    intros [= <-]. simpl. by rewrite (IH _ eq_refl).
Qed.

(** Cleaning succeeds on a series of strings. *)
Lemma Series_apply_strings (stop : gset string) (series : list value) :
  forallb is_str series = true →
  ∃ result, Series_apply (preprocess_text_on stop) series = inr result.
Proof.
  induction series as [|v rest IH]; simpl; [by eexists|].
  intros [Hv Hrest]%andb_prop. destruct (IH Hrest) as [result ->].
  destruct v; try done. by eexists.
Qed.

(** It raises [AttributeError] as soon as one cell is not a string. *)
Lemma Series_apply_not_str (stop : gset string) (series : list value) :
  Exists (fun v => is_str v = false) series →
  Series_apply (preprocess_text_on stop) series = inl (AttributeError "lower").
Proof.
  induction 1 as [v rest Hv | v rest Hrest IH]; simpl.
  - by destruct v.
  - destruct v; try done. by rewrite IH.
Qed.

(** *** The executable instance meets the laws *)

Lemma Stub_laws : SklearnLaws Stub.lib.
Proof.
  split; simpl.
  - intros m docs X. unfold Stub.fit_transform. case_decide; [done|].
    intros [= <-]. by rewrite length_fmap.
  - intros m docs X. unfold Stub.fit_transform. case_decide; [done|].
    intros [= <-]. apply Forall_fmap, Forall_forall. intros doc _. simpl.
    rewrite length_fmap, length_take. lia.
  - intros model X p [= <-]. by rewrite length_fmap.
  - intros model X p [= <-]. by rewrite length_fmap.
  - intros params g1 g2 X y Hp. unfold Stub.fit_svc. by rewrite Hp.
Qed.

(** The demo run completes. *)
Lemma demo_run :
  run Demo.stop_words Stub.lib (Demo.disk Demo.frame) 7%Z
  = (Demo.final_state, inr Demo.final_namespace).
Proof. by_evaluation. Qed.

(** ** The statements of the specification *)

(** C1. Whatever the file holds and whatever the library returns, a run
    makes the scheduled calls in their order and nothing else: its calls are
    a prefix of [schedule], cut where a call raised.  It completes exactly
    when it made them all, and then it went through the four steps
    preprocess, vectorize, fit (Naive Bayes before the SVM) and score, each
    once and in that order. *)
Theorem pipeline_is_flat (stop : gset string) (lib : Sklearn) (fs : filesystem)
    (global : rng lib) :
  let r := run stop lib fs global in
  calls r.1 `prefix_of` schedule
  ∧ (completed r ↔ calls r.1 = schedule)
  ∧ (completed r →
     steps_of (calls r.1) = [Preprocess; Vectorize; Fit; Score]
     ∧ filter (fun c => c.1 = Fit) (calls r.1)
       = [(Fit, call_train_test_split); (Fit, call_nb_fit); (Fit, call_svc_fit)]).
Proof.
  intros r. pose proof (run_spec stop lib fs global) as R. fold r in R.
  unfold completed. destruct r as [s [e|ns]]; simpl.
  - destruct R as [(pre & Hpre & [_ Hlen] & ->) _]. simpl. split_and!; [done| |done].
    split; [done|]. intros ->. lia.
  - destruct R as [-> _]. simpl. split_and!; [done| done |done].
Qed.

(** C2. When the run completes, the console shows exactly two lines, the
    Naive Bayes one and then the SVM one, and each carries the accuracy and
    the weighted F1 that [accuracy_score] and [f1_score] returned for the
    test labels and that model's predictions on the test rows of the
    split. *)
Theorem console_output (stop : gset string) (lib : Sklearn) (fs : filesystem)
    (global : rng lib) (s : state lib) (ns : namespace lib) :
  run stop lib fs global = (s, inr ns) →
  stdout s = [ [PStr "Naive Bayes - Accuracy:"; PFloat (ns_nb_accuracy ns);
                PStr "F1-Score:"; PFloat (ns_nb_f1 ns)];
               [PStr "SVM - Accuracy:"; PFloat (ns_svm_accuracy ns);
                PStr "F1-Score:"; PFloat (ns_svm_f1 ns)] ]
  ∧ accuracy_score lib (ns_y_test ns) (ns_nb_predictions ns) = inr (ns_nb_accuracy ns)
  ∧ f1_score lib (ns_y_test ns) (ns_nb_predictions ns) Weighted = inr (ns_nb_f1 ns)
  ∧ accuracy_score lib (ns_y_test ns) (ns_svm_predictions ns) = inr (ns_svm_accuracy ns)
  ∧ f1_score lib (ns_y_test ns) (ns_svm_predictions ns) Weighted = inr (ns_svm_f1 ns)
  ∧ nb_predict lib (ns_nb_model ns) (ns_X_test ns) = inr (ns_nb_predictions ns)
  ∧ svc_predict lib (ns_svm_model ns) (ns_X_test ns) = inr (ns_svm_predictions ns)
  ∧ train_test_split lib global (ns_X ns) (ns_y ns) 0.2%Q (Some 42%Z)
    = inr (ns_X_train ns, ns_X_test ns, ns_y_train ns, ns_y_test ns).
Proof.
  intros H. pose proof (run_spec stop lib fs global) as R. rewrite H in R.
  destruct R as (-> & _ & _ & (Hsplit & _ & _) & Hnp & Hna & Hnf & Hsp & Hsa & Hsf).
  by split_and!.
Qed.

Lemma console_output_demo :
  stdout Demo.final_state
  = [ [PStr "Naive Bayes - Accuracy:"; @PFloat Stub.lib (1 # 2)%Q;
       PStr "F1-Score:"; @PFloat Stub.lib (1 # 3)%Q];
      [PStr "SVM - Accuracy:"; @PFloat Stub.lib (1 # 2)%Q;
       PStr "F1-Score:"; @PFloat Stub.lib (1 # 3)%Q] ].
Proof.
  exact (proj1 (console_output Demo.stop_words Stub.lib (Demo.disk Demo.frame) 7%Z
                  Demo.final_state Demo.final_namespace demo_run)).
Defined.

(** C3, as the notebook has it.  When the file parses to a frame with a
    column labelled [Comment] that holds only strings and a column labelled
    [Emotion], nothing of the notebook's own raises: the run completes or
    ends with an exception out of a scikit-learn call. *)
Theorem labelled_columns_suffice (stop : gset string) (lib : Sklearn) (fs : filesystem)
    (global : rng lib) (df : DataFrame) (comment : list value) :
  fs "nlp_dataset.csv" = Table df →
  getitem df "Comment" = inr comment →
  forallb is_str comment = true →
  "Emotion" ∈ columns df →
  ∃ s, (∃ ns, run stop lib fs global = (s, inr ns))
       ∨ (∃ msg, run stop lib fs global = (s, inl (SklearnError msg))).
Proof.
  intros Hfs Hcomment Hstr Hemotion.
  assert (Hread : read_csv fs "nlp_dataset.csv" = inr df).
  { unfold read_csv. by rewrite Hfs. }
  pose proof (run_spec stop lib fs global) as R.
  destruct (run stop lib fs global) as [s [e|ns]]; exists s; [right | left; by exists ns].
  destruct R as [_ [Hown | [msg ->]]]; [exfalso | by exists msg].
  destruct Hown as [e He | df' e Hdf' He | df' comment' e Hdf' Hc' He
                   | df' comment' processed key e Hdf' Hc' Hp Hkey He].
  - congruence.
  - assert (df' = df) as -> by congruence. congruence.
  - assert (df' = df) as -> by congruence.
    assert (comment' = comment) as -> by congruence.
    destruct (Series_apply_strings stop comment Hstr) as [result Hresult]. congruence.
  - assert (df' = df) as -> by congruence.
    assert (Hin : key ∈ columns (setitem df "Processed_Comment" processed)).
    { apply setitem_columns.
      apply elem_of_cons in Hkey as [->|Hkey]; [by left|].
      apply list_elem_of_singleton in Hkey as ->. by right. }
    destruct (getitem_present _ _ Hin) as [col Hcol]. congruence.
Qed.

Lemma labelled_columns_suffice_demo :
  ∃ s, (∃ ns, run Demo.stop_words Stub.lib (Demo.disk Demo.frame) 7%Z = (s, inr ns))
       ∨ (∃ msg, run Demo.stop_words Stub.lib (Demo.disk Demo.frame) 7%Z
                 = (s, inl (SklearnError msg))).
Proof.
  eapply (labelled_columns_suffice Demo.stop_words Stub.lib (Demo.disk Demo.frame) 7%Z
            Demo.frame).
  - reflexivity.
  - vm_compute. reflexivity.
  - reflexivity.
  - apply list_elem_of_further, list_elem_of_here.
Defined.

(** C3 as the specification states it does not hold: a file with a
    free-text column and a label column under other labels ends the run with
    [KeyError]. *)
Lemma other_labels_raise :
  columns Demo.relabelled = ["text"; "label"]
  ∧ run Demo.stop_words Stub.lib (Demo.disk Demo.relabelled) 7%Z
    = ({| stdout := []; calls := [(Preprocess, call_read_csv)] |},
       inl (KeyError "Comment")).
Proof. split; [reflexivity | by_evaluation]. Qed.

(** C4. With no file, a file pandas cannot parse, or a comment that is not
    a string, the run ends in cell 1 with the exception the library raised
    for it: nothing catches it, no scikit-learn call is reached and nothing
    is printed. *)
Theorem bad_input_aborts (stop : gset string) (lib : Sklearn) (fs : filesystem)
    (global : rng lib) (e : exn) :
  bad_input fs e →
  ∃ pre, pre `prefix_of` cell1_calls
         ∧ run stop lib fs global = ({| stdout := []; calls := pre |}, inl e).
Proof.
  intros Hbad. unfold run, notebook. rewrite bind_unfold.
  unfold cell1. rewrite bind_unfold, call_unfold. unfold read_csv.
  destruct Hbad as [Hfs | Hfs | df comment Hfs Hcomment Hexists]; rewrite Hfs.
  - exists [(Preprocess, call_read_csv)]. split; [by eexists | done].
  - exists [(Preprocess, call_read_csv)]. split; [by eexists | done].
  - rewrite bind_unfold. unfold lift at 1. rewrite Hcomment.
    rewrite bind_unfold, call_unfold, logged_logged.
    rewrite (Series_apply_not_str stop comment Hexists).
    by exists cell1_calls.
Qed.

Lemma bad_input_aborts_demo :
  ∃ pre, pre `prefix_of` cell1_calls
         ∧ run Demo.stop_words Stub.lib (Demo.disk Demo.holed) 7%Z
           = ({| stdout := []; calls := pre |}, inl (AttributeError "lower")).
Proof.
  apply (bad_input_aborts Demo.stop_words Stub.lib (Demo.disk Demo.holed) 7%Z).
  apply (bad_comment _ Demo.holed [VStr "I am SO happy today!"; VNaN]).
  - reflexivity.
  - by_evaluation.
  - apply Exists_cons_tl, Exists_cons_hd. reflexivity.
Defined.


(** C5. The matrix [X] that cell 2 gets from [fit_transform] has as many
    rows as the frame [read_csv] loaded (and so has the frame with the
    cleaned column, which the vectorizer reads). *)
Theorem feature_matrix_rows (stop : gset string) (lib : Sklearn) (fs : filesystem)
    (df dataset : DataFrame) (X : list (list (float lib))) (y : list value)
    (s0 s1 s2 : state lib) :
  SklearnLaws lib →
  read_csv fs "nlp_dataset.csv" = inr df →
  cell1 stop lib fs s0 = (s1, inr dataset) →
  cell2 lib dataset s1 = (s2, inr (X, y)) →
  length X = length (rows df) ∧ length (rows dataset) = length (rows df).
Proof.
  intros laws Hread H1 H2.
  pose proof (cell2_spec lib dataset s1) as Hcell2. rewrite H2 in Hcell2.
  destruct Hcell2 as (_ & docs & Hdocs & Hfit & _).
  pose proof (cell1_spec stop lib fs s0) as Hcell1. rewrite H1 in Hcell1.
  destruct Hcell1 as (_ & df' & comment & processed & Hread' & Hcomment & Happly & Hset).
  assert (df' = df) as -> by congruence.
  assert (Hrows : length (rows dataset) = length (rows df)).
  { rewrite Hset. apply setitem_rows. rewrite (Series_apply_length _ _ _ Happly).
    by apply getitem_length in Hcomment. }
  split; [|done].
  rewrite (fit_transform_rows lib laws _ _ _ Hfit).
  by rewrite (getitem_length _ _ _ Hdocs).
Qed.

Lemma feature_matrix_rows_demo :
  length (ns_X Demo.final_namespace) = length (rows Demo.frame)
  ∧ length (rows (ns_dataset Demo.final_namespace)) = length (rows Demo.frame).
Proof.
  apply (feature_matrix_rows Demo.stop_words Stub.lib (Demo.disk Demo.frame)
           Demo.frame (ns_dataset Demo.final_namespace)
           (ns_X Demo.final_namespace) (ns_y Demo.final_namespace)
           fresh (logged fresh cell1_calls)
           (logged fresh (cell1_calls ++ cell2_calls))).
  - exact Stub_laws.
  - reflexivity.
  - by_evaluation.
  - by_evaluation.
Defined.

(** C9. Every row of the matrix [X] that cell 2 gets from the vectorizer
    has at most 500 entries: the vectorizer is built with
    [max_features=500]. *)
Theorem feature_matrix_columns (lib : Sklearn) (dataset : DataFrame)
    (X : list (list (float lib))) (y : list value) (s s' : state lib) :
  SklearnLaws lib →
  cell2 lib dataset s = (s', inr (X, y)) →
  Forall (fun row => (length row ≤ 500)%nat) X.
Proof.
  intros laws H. pose proof (cell2_spec lib dataset s) as Hcell2. rewrite H in Hcell2.
  destruct Hcell2 as (_ & docs & _ & Hfit & _).
  exact (fit_transform_columns lib laws _ _ _ Hfit).
Qed.

Lemma feature_matrix_columns_demo :
  Forall (fun row => (length row ≤ 500)%nat) (ns_X Demo.final_namespace).
Proof.
  apply (feature_matrix_columns Stub.lib (ns_dataset Demo.final_namespace)
           (ns_X Demo.final_namespace) (ns_y Demo.final_namespace)
           (logged fresh cell1_calls) (logged fresh (cell1_calls ++ cell2_calls))).
  - exact Stub_laws.
  - by_evaluation.
Defined.

(** C6. In a run that completes, each model's [predict] on [X_test] returned
    as many labels as [X_test], the test part of the 80/20 split of cell 3,
    has rows. *)
Theorem predictions_cover_test_set (stop : gset string) (lib : Sklearn)
    (fs : filesystem) (global : rng lib) (s : state lib) (ns : namespace lib) :
  SklearnLaws lib →
  run stop lib fs global = (s, inr ns) →
  length (ns_nb_predictions ns) = length (ns_X_test ns)
  ∧ length (ns_svm_predictions ns) = length (ns_X_test ns)
  ∧ train_test_split lib global (ns_X ns) (ns_y ns) 0.2%Q (Some 42%Z)
    = inr (ns_X_train ns, ns_X_test ns, ns_y_train ns, ns_y_test ns).
Proof.
  intros laws H. pose proof (run_spec stop lib fs global) as R. rewrite H in R.
  destruct R as (_ & _ & _ & (Hsplit & _ & _) & Hnb & _ & _ & Hsvm & _ & _).
  split_and!; [|..|done].
  - exact (nb_predict_length lib laws _ _ _ Hnb).
  - exact (svc_predict_length lib laws _ _ _ Hsvm).
Qed.

Lemma predictions_cover_test_set_demo :
  length (ns_nb_predictions Demo.final_namespace) = 2%nat
  ∧ length (ns_svm_predictions Demo.final_namespace) = 2%nat.
Proof.
  pose proof (predictions_cover_test_set Demo.stop_words Stub.lib
                (Demo.disk Demo.frame) 7%Z Demo.final_state Demo.final_namespace
                Stub_laws demo_run) as (Hnb & Hsvm & _).
  split; [exact Hnb | exact Hsvm].
Defined.

(** C10. Two runs on the same files end the same way whatever state numpy's
    global generator is in: the same calls, the same split, models and
    predictions or the same exception, and the same printed lines.  The
    split is seeded ([random_state=42]) and nothing else draws from the
    generator. *)
Theorem run_deterministic (stop : gset string) (lib : Sklearn) (fs : filesystem)
    (g1 g2 : rng lib) :
  SklearnLaws lib →
  run stop lib fs g1 = run stop lib fs g2.
Proof.
  intros laws. unfold run, notebook. rewrite !bind_unfold.
  destruct (cell1 stop lib fs fresh) as [s1 [e|dataset]]; [done|].
  rewrite !bind_unfold.
  destruct (cell2 lib dataset s1) as [s2 [e|[X y]]]; [done|].
  assert (Hcell3 : cell3 lib g1 X y s2 = cell3 lib g2 X y s2).
  { unfold cell3, train_test_split, check_random_state.
    rewrite !bind_unfold, !call_unfold.
    destruct (sklearn _) as [e|[[[X_train X_test] y_train] y_test]]; [done|].
    rewrite !bind_unfold, !call_unfold.
    destruct (sklearn _) as [e|nb_model]; [done|].
    rewrite !bind_unfold, !call_unfold.
    by rewrite (svc_fit_global lib laws (SVC "linear") g1 g2). }
  rewrite !bind_unfold, Hcell3. done.
Qed.

Lemma run_deterministic_demo :
  run Demo.stop_words Stub.lib (Demo.disk Demo.frame) 7%Z
  = run Demo.stop_words Stub.lib (Demo.disk Demo.frame) 42%Z.
Proof.
  exact (run_deterministic Demo.stop_words Stub.lib (Demo.disk Demo.frame) 7%Z 42%Z
           Stub_laws).
Defined.

(** Without the seed the answer would depend on the generator: the
    executable instance splits differently from two generator states. *)
Example unseeded_split_differs :
  train_test_split Stub.lib 0%Z (ns_X Demo.final_namespace) (ns_y Demo.final_namespace)
    0.2%Q None
  ≠ train_test_split Stub.lib 1%Z (ns_X Demo.final_namespace) (ns_y Demo.final_namespace)
      0.2%Q None.
Proof.
  intros H.
  assert (Hy : ∀ r r' : string + (list (list Q) * list (list Q) * list value * list value),
             r = r' →
             match r, r' with
             | inr (_, _, _, y_test), inr (_, _, _, y_test') => y_test = y_test'
             | _, _ => True
             end).
  { intros r r' ->. by destruct r' as [?|[[[??]?]?]]. }
  apply Hy in H. vm_compute in H. discriminate H.
Qed.

(** C7, as the notebook has it.  All there is to observe of a run: it loads
    one CSV file, makes the scheduled library calls in order up to the first
    that raises, and prints nothing unless it completes; when it completes
    it has printed two lines that carry four numbers, an accuracy and a
    weighted F1 for each of the two models. *)
Theorem observable_behaviour (stop : gset string) (lib : Sklearn) (fs : filesystem)
    (global : rng lib) :
  let r := run stop lib fs global in
  length (filter (fun c => c.2 = call_read_csv) (calls r.1)) = 1%nat
  ∧ calls r.1 `prefix_of` schedule
  ∧ match r.2 with
    | inr ns =>
        calls r.1 = schedule
        ∧ stdout r.1
          = [report "Naive Bayes - Accuracy:" (ns_nb_accuracy ns) (ns_nb_f1 ns);
             report "SVM - Accuracy:" (ns_svm_accuracy ns) (ns_svm_f1 ns)]
        ∧ numbers_printed (stdout r.1) = 4%nat
    | inl _ => stdout r.1 = []
    end.
Proof.
  intros r. pose proof (run_spec stop lib fs global) as R. fold r in R.
  destruct r as [s [e|ns]]; simpl.
  - destruct R as [(pre & [post Hpost] & [Hpos _] & ->) _]. simpl.
    split_and!; [|by exists post|done].
    destruct pre as [|c pre]; [simpl in Hpos; lia|].
    assert (Hcount : length (filter (fun c => c.2 = call_read_csv) schedule) = 1%nat)
      by reflexivity.
    rewrite Hpost in Hcount. injection Hpost as <- Hrest.
    rewrite <- app_comm_cons, filter_cons_True in Hcount by done.
    rewrite filter_cons_True by done.
    rewrite filter_app, length_cons, length_app in Hcount. simpl. lia.
  - destruct R as [-> _]. simpl. by split_and!.
Qed.

(** C7 as the specification states it does not hold: the completed demo
    run shows four numbers, not two. *)
Lemma four_numbers_printed :
  completed (run Demo.stop_words Stub.lib (Demo.disk Demo.frame) 7%Z)
  ∧ numbers_printed (stdout (run Demo.stop_words Stub.lib (Demo.disk Demo.frame) 7%Z).1)
    = 4%nat
  ∧ numbers_printed (stdout (run Demo.stop_words Stub.lib (Demo.disk Demo.frame) 7%Z).1)
    ≠ 2%nat.
Proof.
  rewrite demo_run. split_and!; [done | reflexivity | discriminate].
Qed.

(** ** More about [preprocess_text] *)
Module CleanFacts.
Import Py.

Lemma lower_char_fixed (c : ascii) : isupper c = false → lower_char c = c.
Proof. intros H. unfold lower_char. by rewrite H. Qed.

(** A string without capitals is its own lowering. *)
Lemma lower_fixed (s : string) :
  Forall (fun c => isupper c = false) (chars s) → lower s = s.
Proof.
  induction s as [|c s IH]; [done|]. intros [Hc Hs]%Forall_cons. simpl.
  by rewrite lower_char_fixed, IH.
Qed.

(** A string without a character of [z] passes the deleting table
    unchanged. *)
Lemma translate_fixed (z s : string) :
  Forall (fun c => c ∉ chars z) (chars s) → translate (maketrans "" "" z) s = s.
Proof.
  induction s as [|c s IH]; [done|]. intros [Hc Hs]%Forall_cons. simpl.
  rewrite PyFacts.maketrans_delete_lookup, decide_False by done. by rewrite IH.
Qed.

Lemma lower_app (s t : string) : lower (s +:+ t) = lower s +:+ lower t.
Proof.
  induction s as [|c s IH]; [done|].
  rewrite !PyFacts.string_app_cons. simpl. by rewrite IH, PyFacts.string_app_cons.
Qed.

Lemma translate_app (tb : table) (s t : string) :
  translate tb (s +:+ t) = translate tb s +:+ translate tb t.
Proof.
  induction s as [|c s IH]; [done|].
  rewrite PyFacts.string_app_cons. simpl. rewrite IH.
  by destruct (tb !! c) as [[d|]|].
Qed.


(** Whitespace and punctuation are not capitals, and whitespace is not
    punctuation. *)
Lemma isspace_not_upper (c : ascii) : isspace c = true → isupper c = false.
Proof. destruct c as [[] [] [] [] [] [] [] []]; by vm_compute. Qed.

Lemma punctuation_not_upper (c : ascii) : c ∈ chars punctuation → isupper c = false.
Proof.
  intros H. apply (bool_decide_pack _) in H. revert H.
  destruct c as [[] [] [] [] [] [] [] []]; by vm_compute.
Qed.

Lemma isspace_not_punctuation (c : ascii) : isspace c = true → c ∉ chars punctuation.
Proof.
  intros Hc H. apply (bool_decide_pack _) in H. revert Hc H.
  destruct c as [[] [] [] [] [] [] [] []]; by vm_compute.
Qed.




(** [split] across a whitespace character. *)
Lemma split_from_app_space (c : ascii) (a b w : string) :
  isspace c = true →
  split_from w (a +:+ String c b) = split_from w a ++ split b.
Proof.
  intros Hc. revert w. induction a as [|d a IH]; intros w.
  - change ("" +:+ String c b) with (String c b).
    rewrite PyFacts.split_from_space by done. simpl. by case_decide.
  - rewrite PyFacts.string_app_cons. simpl. destruct (isspace d).
    + case_decide; by rewrite IH.
    + by rewrite IH.
Qed.

(** A string of whitespace has no words. *)
Lemma split_from_blank (s : string) :
  Forall (fun c => isspace c = true) (chars s) → split_from "" s = [].
Proof.
  induction s as [|c s IH]; [done|]. intros [Hc Hs]%Forall_cons. simpl.
  rewrite Hc. simpl. by apply IH.
Qed.

(** [join] of words is empty only for no words. *)
Lemma join_empty (ws : list string) :
  Forall word ws → join " " ws = "" → ws = [].
Proof.
  intros Hws H. destruct ws as [|w ws]; [done|]. exfalso.
  apply Forall_cons in Hws as [[Hne _] _].
  destruct w as [|c w]; [done|]. unfold join in H. by destruct ws.
Qed.






Section Kept.

Variable stop : gset string.

Lemma kept_words_words (text : string) : Forall word (kept_words stop text).
Proof. apply Forall_filter_keep, PyFacts.split_words. Qed.

Lemma kept_words_allowed (text : string) : Forall (fun w => w ∉ stop) (kept_words stop text).
Proof. apply Forall_filter_holds. Qed.

Lemma result_no_upper (text : string) :
  Forall (fun c => isupper c = false) (chars (preprocess_text stop text)).
Proof.
  apply PyFacts.join_Forall; [by repeat constructor|].
  apply Forall_filter_keep, PyFacts.split_from_Forall; [constructor|].
  apply PyFacts.translate_delete_Forall, PyFacts.lower_no_upper.
Qed.

Lemma result_no_punctuation (text : string) :
  Forall (fun c => c ∉ chars punctuation) (chars (preprocess_text stop text)).
Proof.
  apply PyFacts.join_Forall.
  { repeat constructor. apply (bool_decide_unpack _). by vm_compute. }
  apply Forall_filter_keep, PyFacts.split_from_Forall; [constructor|].
  apply PyFacts.translate_delete_gone.
Qed.

Lemma filter_all {A : Type} (P : A → Prop) `{!∀ x, Decision (P x)} (l : list A) :
  Forall P l → filter P l = l.
Proof.
  induction 1 as [|x l Hx Hl IH]; [done|]. by rewrite filter_cons_True, IH.
Qed.

End Kept.

End CleanFacts.

(** X1. Cleaning a cleaned text changes nothing. *)
Theorem preprocess_text_idempotent (stop : gset string) (text : string) :
  preprocess_text stop (preprocess_text stop text) = preprocess_text stop text.
Proof.
  unfold preprocess_text at 1. cbv zeta.
  rewrite (CleanFacts.lower_fixed _ (CleanFacts.result_no_upper stop text)).
  rewrite (CleanFacts.translate_fixed _ _ (CleanFacts.result_no_punctuation stop text)).
  change (preprocess_text stop text) with (Py.join " " (kept_words stop text)).
  rewrite (PyFacts.split_join _ (CleanFacts.kept_words_words stop text)).
  by rewrite (CleanFacts.filter_all _ _ (CleanFacts.kept_words_allowed stop text)).
Qed.

(** X2. The only whitespace left in a cleaned text is the single space
    between two words: every whitespace character of the result is a space,
    and splitting the result and joining it again gives the result back. *)
Theorem preprocess_text_single_spaced (stop : gset string) (text : string) :
  Forall (fun c => Py.isspace c = true → c = " "%char)
         (Py.chars (preprocess_text stop text))
  ∧ Py.join " " (Py.split (preprocess_text stop text)) = preprocess_text stop text.
Proof.
  split.
  - apply PyFacts.join_Forall; [by repeat constructor|].
    eapply Forall_impl; [apply (CleanFacts.kept_words_words stop text)|].
    intros w [_ Hw]. eapply Forall_impl; [exact Hw|]. intros c Hc Hc'. congruence.
  - change (preprocess_text stop text) with (Py.join " " (kept_words stop text)).
    by rewrite (PyFacts.split_join _ (CleanFacts.kept_words_words stop text)).
Qed.

(** X3. The cleaned text is empty exactly when no word is kept. *)
Theorem preprocess_text_empty_iff (stop : gset string) (text : string) :
  preprocess_text stop text = "" ↔ kept_words stop text = [].
Proof.
  change (preprocess_text stop text) with (Py.join " " (kept_words stop text)).
  split.
  - apply CleanFacts.join_empty, CleanFacts.kept_words_words.
  - by intros ->.
Qed.

(** X4. A text made of whitespace and ASCII punctuation only, the empty
    text included, is cleaned to the empty string. *)
Theorem preprocess_text_blank (stop : gset string) (text : string) :
  Forall (fun c => Py.isspace c = true ∨ c ∈ Py.chars Py.punctuation) (Py.chars text) →
  preprocess_text stop text = "".
Proof.
  intros H. unfold preprocess_text. cbv zeta.
  rewrite CleanFacts.lower_fixed.
  2:{ eapply Forall_impl; [exact H|]. intros c [Hc|Hc].
      - by apply CleanFacts.isspace_not_upper.
      - by apply CleanFacts.punctuation_not_upper. }
  unfold Py.split. rewrite CleanFacts.split_from_blank; [done|].
  pose proof (PyFacts.translate_delete_Forall _ Py.punctuation text H) as Hkeep.
  pose proof (PyFacts.translate_delete_gone Py.punctuation text) as Hgone.
  pose proof (proj2 (Forall_and _ _) (conj Hkeep Hgone)) as Hboth.
  eapply Forall_impl; [exact Hboth|]. by intros c [[Hc|Hc] Hn].
Qed.

Lemma preprocess_text_blank_demo : preprocess_text ∅ " ?!, ... " = "".
Proof.
  apply preprocess_text_blank.
  unfold Py.chars at 1. cbn [list_ascii_of_string].
  repeat (apply Forall_cons; split;
          [first [left; reflexivity | right; apply (bool_decide_unpack _); by vm_compute]|]).
  constructor.
Defined.

Lemma translate_keep (z : string) (c : ascii) (s : string) :
  c ∉ Py.chars z →
  Py.translate (Py.maketrans "" "" z) (String c s)
  = String c (Py.translate (Py.maketrans "" "" z) s).
Proof.
  intros Hc. simpl. by rewrite PyFacts.maketrans_delete_lookup, decide_False by done.
Qed.

(** X5. Cleaning works text by text: of two texts put together with a
    whitespace character between them, the words kept are those kept of the
    first followed by those kept of the second. *)
Theorem kept_words_app (stop : gset string) (c : ascii) (a b : string) :
  Py.isspace c = true →
  kept_words stop (a +:+ String c b) = kept_words stop a ++ kept_words stop b
  ∧ preprocess_text stop (a +:+ String c b)
    = Py.join " " (kept_words stop a ++ kept_words stop b).
Proof.
  intros Hc.
  assert (H : kept_words stop (a +:+ String c b)
              = kept_words stop a ++ kept_words stop b).
  { unfold kept_words. rewrite CleanFacts.lower_app.
    change (Py.lower (String c b)) with (String (Py.lower_char c) (Py.lower b)).
    rewrite (CleanFacts.lower_char_fixed c) by by apply CleanFacts.isspace_not_upper.
    rewrite CleanFacts.translate_app.
    rewrite translate_keep by by apply CleanFacts.isspace_not_punctuation.
    unfold Py.split at 1. rewrite CleanFacts.split_from_app_space by done.
    by rewrite filter_app. }
  split; [exact H|].
  change (preprocess_text stop (a +:+ String c b))
    with (Py.join " " (kept_words stop (a +:+ String c b))).
  by rewrite H.
Qed.

Lemma kept_words_app_demo :
  kept_words Demo.stop_words ("I am SO happy" +:+ String " " "This is a sad day.")
  = kept_words Demo.stop_words "I am SO happy"
    ++ kept_words Demo.stop_words "This is a sad day.".
Proof.
  exact (proj1 (kept_words_app Demo.stop_words " " "I am SO happy" "This is a sad day."
                  eq_refl)).
Defined.



(** ** More about the cells *)

Lemma Series_apply_inr (stop : gset string) (comment processed : list value) :
  Series_apply (preprocess_text_on stop) comment = inr processed →
  ∃ texts, comment = VStr <$> texts
           ∧ processed = (fun t => VStr (preprocess_text stop t)) <$> texts.
Proof.
  revert processed. induction comment as [|v rest IH]; intros processed; simpl.
  - intros [= <-]. by exists [].
  - destruct v as [t| |]; simpl; [|done..].
    destruct (Series_apply (preprocess_text_on stop) rest) as [|rest'] eqn:Hrest; [done|].
    intros [= <-]. destruct (IH _ eq_refl) as (texts & -> & ->). by exists (t :: texts).
Qed.


(** Reading another column after an assignment. *)
Lemma lookup_after_insert (key key' : string) (rs : list (gmap string value))
    (series : list value) :
  key' ≠ key → length series = length rs →
  (fun r => default VNaN (r !! key')) <$> zip_with (fun r v => <[key := v]> r) rs series
  = (fun r => default VNaN (r !! key')) <$> rs.
Proof.
  intros Hne. revert series. induction rs as [|r rs IH]; intros [|v series] Hlen;
    simpl in *; try done.
  rewrite lookup_insert_ne by done. rewrite IH by lia. done.
Qed.

Lemma getitem_setitem_ne (df : DataFrame) (key key' : string) (series : list value) :
  key' ≠ key → length series = length (rows df) →
  getitem (setitem df key series) key' = getitem df key'.
Proof.
  intros Hne Hlen. unfold getitem. simpl.
  rewrite lookup_after_insert by done.
  destruct (decide (key' ∈ columns df)) as [Hin|Hin].
  - rewrite decide_True; [done|]. case_decide; [done|]. apply elem_of_app. by left.
  - rewrite decide_False; [done|]. case_decide; [done|].
    intros [?|Hk%list_elem_of_singleton]%elem_of_app; done.
Qed.

(** Reading the assigned column gives the series back. *)
Lemma lookup_inserted (key : string) (rs : list (gmap string value)) (series : list value) :
  length series = length rs →
  (fun r => default VNaN (r !! key)) <$> zip_with (fun r v => <[key := v]> r) rs series
  = series.
Proof.
  revert series. induction rs as [|r rs IH]; intros [|v series] Hlen; simpl in *; try done.
  rewrite lookup_insert_eq. simpl. by rewrite IH by lia.
Qed.

Lemma getitem_setitem_eq (df : DataFrame) (key : string) (series : list value) :
  length series = length (rows df) →
  getitem (setitem df key series) key = inr series.
Proof.
  intros Hlen. unfold getitem. simpl. rewrite lookup_inserted by done.
  rewrite decide_True; [done|]. case_decide; [done|].
  apply elem_of_app. right. apply list_elem_of_here.
Qed.

(** Cell 1 on a frame that has the [Comment] column. *)
Lemma cell1_eval (stop : gset string) (lib : Sklearn) (fs : filesystem)
    (df : DataFrame) (comment : list value) (s : state lib) :
  fs "nlp_dataset.csv" = Table df →
  getitem df "Comment" = inr comment →
  cell1 stop lib fs s
  = (logged s cell1_calls,
     match Series_apply (preprocess_text_on stop) comment with
     | inl e => inl e
     | inr processed => inr (setitem df "Processed_Comment" processed)
     end).
Proof.
  intros Hfs Hcomment. unfold cell1. rewrite bind_unfold, call_unfold.
  unfold read_csv. rewrite Hfs. rewrite bind_unfold. unfold lift at 1. rewrite Hcomment.
  rewrite bind_unfold, call_unfold, logged_logged.
  by destruct (Series_apply (preprocess_text_on stop) comment).
Qed.

(** Cell 2 reads two columns of the frame and nothing else. *)
Lemma cell2_ext (lib : Sklearn) (d1 d2 : DataFrame) (s : state lib) :
  getitem d1 "Processed_Comment" = getitem d2 "Processed_Comment" →
  getitem d1 "Emotion" = getitem d2 "Emotion" →
  cell2 lib d1 s = cell2 lib d2 s.
Proof.
  intros Hp He. unfold cell2. rewrite !bind_unfold. unfold lift at 1 3. rewrite Hp.
  destruct (getitem d2 "Processed_Comment") as [e|processed]; [done|].
  rewrite !bind_unfold, !call_unfold.
  destruct (sklearn _) as [e|X]; [done|].
  rewrite !bind_unfold. unfold lift. by rewrite He.
Qed.

(** X8. Cell 1 changes the loaded frame in one place: the column
    [Processed_Comment] holds the cleaned text of each comment, in row
    order, every other column reads as before, and no row is added or
    dropped. *)
Theorem cell1_adds_cleaned_column (stop : gset string) (lib : Sklearn) (fs : filesystem)
    (df dataset : DataFrame) (s s' : state lib) :
  fs "nlp_dataset.csv" = Table df →
  cell1 stop lib fs s = (s', inr dataset) →
  (∃ texts, getitem df "Comment" = inr (VStr <$> texts)
            ∧ getitem dataset "Processed_Comment"
              = inr ((fun t => VStr (preprocess_text stop t)) <$> texts))
  ∧ (∀ key, key ≠ "Processed_Comment" → getitem dataset key = getitem df key)
  ∧ length (rows dataset) = length (rows df).
Proof.
  intros Hfs H. pose proof (cell1_spec stop lib fs s) as Hcell1. rewrite H in Hcell1.
  destruct Hcell1 as (_ & df' & comment & processed & Hread & Hcomment & Happly & ->).
  assert (df' = df) as ->.
  { unfold read_csv in Hread. rewrite Hfs in Hread. congruence. }
  assert (Hlen : length processed = length (rows df)).
  { rewrite (Series_apply_length _ _ _ Happly). by apply getitem_length in Hcomment. }
  destruct (Series_apply_inr _ _ _ Happly) as (texts & -> & ->).
  split_and!.
  - exists texts. split; [done|]. by apply getitem_setitem_eq.
  - intros key Hkey. by apply getitem_setitem_ne.
  - by apply setitem_rows.
Qed.

Lemma cell1_adds_cleaned_column_demo :
  (∃ texts, getitem Demo.frame "Comment" = inr (VStr <$> texts)
            ∧ getitem (ns_dataset Demo.final_namespace) "Processed_Comment"
              = inr ((fun t => VStr (preprocess_text Demo.stop_words t)) <$> texts))
  ∧ (∀ key, key ≠ "Processed_Comment" →
            getitem (ns_dataset Demo.final_namespace) key = getitem Demo.frame key)
  ∧ length (rows (ns_dataset Demo.final_namespace)) = length (rows Demo.frame).
Proof.
  apply (cell1_adds_cleaned_column Demo.stop_words Stub.lib (Demo.disk Demo.frame)
           Demo.frame (ns_dataset Demo.final_namespace) fresh (logged fresh cell1_calls)).
  - reflexivity.
  - by_evaluation.
Defined.



(** X10. A file without a [Comment] column ends the run with
    [KeyError('Comment')] right after it is read: nothing is cleaned, no
    scikit-learn call is made, nothing is printed. *)
Theorem missing_comment_column (stop : gset string) (lib : Sklearn) (fs : filesystem)
    (global : rng lib) (df : DataFrame) :
  fs "nlp_dataset.csv" = Table df →
  "Comment" ∉ columns df →
  run stop lib fs global
  = ({| stdout := []; calls := [(Preprocess, call_read_csv)] |}, inl (KeyError "Comment")).
Proof.
  intros Hfs Hcol. unfold run, notebook. rewrite bind_unfold.
  unfold cell1. rewrite bind_unfold, call_unfold. unfold read_csv. rewrite Hfs.
  rewrite bind_unfold. unfold lift at 1, getitem. by rewrite decide_False by done.
Qed.

Lemma missing_comment_column_demo :
  run Demo.stop_words Stub.lib (Demo.disk Demo.relabelled) 7%Z
  = ({| stdout := []; calls := [(Preprocess, call_read_csv)] |}, inl (KeyError "Comment")).
Proof.
  apply (missing_comment_column Demo.stop_words Stub.lib (Demo.disk Demo.relabelled) 7%Z
           Demo.relabelled).
  - reflexivity.
  - apply (bool_decide_unpack _). by vm_compute.
Defined.

(** X11. A file with string comments and no [Emotion] column is vectorized
    before the label column is looked up: the run makes the first three
    calls and ends with [KeyError('Emotion')], unless the vectorizer itself
    raised. *)
Theorem missing_emotion_column (stop : gset string) (lib : Sklearn) (fs : filesystem)
    (global : rng lib) (df : DataFrame) (comment : list value) :
  fs "nlp_dataset.csv" = Table df →
  getitem df "Comment" = inr comment →
  forallb is_str comment = true →
  "Emotion" ∉ columns df →
  ∃ e, run stop lib fs global
       = ({| stdout := []; calls := cell1_calls ++ cell2_calls |}, inl e)
       ∧ (e = KeyError "Emotion" ∨ ∃ msg, e = SklearnError msg).
Proof.
  intros Hfs Hcomment Hstr Hcol. unfold run, notebook. rewrite bind_unfold.
  rewrite (cell1_eval stop lib fs df comment fresh Hfs Hcomment).
  destruct (Series_apply_strings stop comment Hstr) as [processed Happly]. rewrite Happly.
  assert (Hlen : length processed = length (rows df)).
  { rewrite (Series_apply_length _ _ _ Happly). by apply getitem_length in Hcomment. }
  rewrite bind_unfold. unfold cell2. rewrite bind_unfold. unfold lift at 1.
  rewrite getitem_setitem_eq by done.
  rewrite bind_unfold, call_unfold, logged_logged.
  destruct (tfidf_fit_transform lib (Some 500%nat) processed) as [msg|X]; simpl.
  { exists (SklearnError msg). split; [done|]. right. by exists msg. }
  rewrite bind_unfold. unfold lift at 1.
  rewrite getitem_setitem_ne by done. unfold getitem. rewrite decide_False by done.
  exists (KeyError "Emotion"). split; [done|]. by left.
Qed.

Lemma missing_emotion_column_demo :
  ∃ e, run Demo.stop_words Stub.lib (Demo.disk Demo2.unlabelled) 7%Z
       = ({| stdout := []; calls := cell1_calls ++ cell2_calls |}, inl e)
       ∧ (e = KeyError "Emotion" ∨ ∃ msg, e = SklearnError msg).
Proof.
  apply (missing_emotion_column Demo.stop_words Stub.lib (Demo.disk Demo2.unlabelled) 7%Z
           Demo2.unlabelled (Demo2.column Demo2.unlabelled "Comment")).
  - reflexivity.
  - by_evaluation.
  - by_evaluation.
  - apply (bool_decide_unpack _). by vm_compute.
Defined.

(** X12. A run depends on the file through two things only, the cleaned
    comments and the [Emotion] column: two files that agree on them give the
    same calls, console lines, matrix, split, models, predictions and
    scores, or the same exception, whatever else their frames hold. *)
Theorem run_reads_two_columns (stop : gset string) (lib : Sklearn)
    (fs1 fs2 : filesystem) (global : rng lib) (df1 df2 : DataFrame)
    (comment1 comment2 : list value) :
  fs1 "nlp_dataset.csv" = Table df1 →
  fs2 "nlp_dataset.csv" = Table df2 →
  getitem df1 "Comment" = inr comment1 →
  getitem df2 "Comment" = inr comment2 →
  Series_apply (preprocess_text_on stop) comment1
  = Series_apply (preprocess_text_on stop) comment2 →
  getitem df1 "Emotion" = getitem df2 "Emotion" →
  outcome (run stop lib fs1 global) = outcome (run stop lib fs2 global).
Proof.
  intros Hfs1 Hfs2 Hc1 Hc2 Happly Hemotion. unfold run, notebook.
  rewrite !bind_unfold.
  rewrite (cell1_eval stop lib fs1 df1 comment1 fresh Hfs1 Hc1).
  rewrite (cell1_eval stop lib fs2 df2 comment2 fresh Hfs2 Hc2).
  rewrite Happly.
  destruct (Series_apply (preprocess_text_on stop) comment2) as [e|processed] eqn:Hp2;
    [done|].
  assert (Hlen1 : length processed = length (rows df1)).
  { rewrite (Series_apply_length _ _ _ Happly). by apply getitem_length in Hc1. }
  assert (Hlen2 : length processed = length (rows df2)).
  { rewrite (Series_apply_length _ _ _ Hp2). by apply getitem_length in Hc2. }
  rewrite !bind_unfold.
  rewrite (cell2_ext lib (setitem df1 "Processed_Comment" processed)
             (setitem df2 "Processed_Comment" processed)).
  2:{ by rewrite !getitem_setitem_eq. }
  2:{ by rewrite !getitem_setitem_ne. }
  destruct (cell2 lib _ _) as [s2 [e|[X y]]]; [done|].
  rewrite !bind_unfold.
  destruct (cell3 lib global X y s2)
    as [s3 [e|[[[[[X_train X_test] y_train] y_test] nb_model] svm_model]]]; [done|].
  rewrite !bind_unfold.
  by destruct (cell4 lib X_test y_test nb_model svm_model s3)
    as [s4 [e|[[[[[nb_predictions nb_accuracy] nb_f1] svm_predictions] svm_accuracy] svm_f1]]].
Qed.

Lemma run_reads_two_columns_demo :
  outcome (run Demo.stop_words Stub.lib (Demo.disk Demo.frame) 7%Z)
  = outcome (run Demo.stop_words Stub.lib (Demo.disk Demo2.shouted) 7%Z).
Proof.
  apply (run_reads_two_columns Demo.stop_words Stub.lib
           (Demo.disk Demo.frame) (Demo.disk Demo2.shouted) 7%Z
           Demo.frame Demo2.shouted
           (Demo2.column Demo.frame "Comment") (Demo2.column Demo2.shouted "Comment")).
  - reflexivity.
  - reflexivity.
  - by_evaluation.
  - by_evaluation.
  - by_common_value.
  - by_common_value.
Defined.

(** X13. In a run that completes, the file was parsed to a frame whose
    [Comment] cells are all strings; the vectorizer was given exactly their
    cleaned texts, in row order, and returned [X]; and [y] is the frame's
    [Emotion] column as loaded. *)
Theorem completed_run_inputs (stop : gset string) (lib : Sklearn) (fs : filesystem)
    (global : rng lib) (s : state lib) (ns : namespace lib) :
  run stop lib fs global = (s, inr ns) →
  ∃ df texts,
    fs "nlp_dataset.csv" = Table df
    ∧ getitem df "Comment" = inr (VStr <$> texts)
    ∧ tfidf_fit_transform lib (Some 500%nat)
        ((fun t => VStr (preprocess_text stop t)) <$> texts) = inr (ns_X ns)
    ∧ getitem df "Emotion" = inr (ns_y ns).
Proof.
  intros H. pose proof (run_spec stop lib fs global) as R. rewrite H in R.
  destruct R as (_ & (df & comment & processed & Hread & Hcomment & Happly & Hset)
                   & (docs & Hdocs & Hfit & Hy) & _).
  assert (Hlen : length processed = length (rows df)).
  { rewrite (Series_apply_length _ _ _ Happly). by apply getitem_length in Hcomment. }
  destruct (Series_apply_inr _ _ _ Happly) as (texts & -> & ->).
  rewrite Hset in Hdocs, Hy.
  rewrite getitem_setitem_eq in Hdocs by done.
  rewrite getitem_setitem_ne in Hy by done.
  exists df, texts. split_and!; [|done| |done].
  - unfold read_csv in Hread. destruct (fs "nlp_dataset.csv"); congruence.
  - congruence.
Qed.

Lemma completed_run_inputs_demo :
  ∃ df texts,
    Demo.disk Demo.frame "nlp_dataset.csv" = Table df
    ∧ getitem df "Comment" = inr (VStr <$> texts)
    ∧ tfidf_fit_transform Stub.lib (Some 500%nat)
        ((fun t => VStr (preprocess_text Demo.stop_words t)) <$> texts)
      = inr (ns_X Demo.final_namespace)
    ∧ getitem df "Emotion" = inr (ns_y Demo.final_namespace).
Proof.
  exact (completed_run_inputs Demo.stop_words Stub.lib (Demo.disk Demo.frame) 7%Z
           Demo.final_state Demo.final_namespace demo_run).
Defined.

(** X14. The matrix and the labels that cell 2 hands to the split have the
    same number of rows. *)
Theorem features_match_labels (lib : Sklearn) (dataset : DataFrame)
    (X : list (list (float lib))) (y : list value) (s s' : state lib) :
  SklearnLaws lib →
  cell2 lib dataset s = (s', inr (X, y)) →
  length X = length y.
Proof.
  intros laws H. pose proof (cell2_spec lib dataset s) as Hcell2. rewrite H in Hcell2.
  destruct Hcell2 as (_ & docs & Hdocs & Hfit & Hy).
  rewrite (fit_transform_rows lib laws _ _ _ Hfit).
  by rewrite (getitem_length _ _ _ Hdocs), (getitem_length _ _ _ Hy).
Qed.

Lemma features_match_labels_demo :
  length (ns_X Demo.final_namespace) = length (ns_y Demo.final_namespace).
Proof.
  apply (features_match_labels Stub.lib (ns_dataset Demo.final_namespace)
           (ns_X Demo.final_namespace) (ns_y Demo.final_namespace)
           (logged fresh cell1_calls) (logged fresh (cell1_calls ++ cell2_calls))).
  - exact Stub_laws.
  - by_evaluation.
Defined.
